(** * The agentic chat backend: tools, registry, intent classifier, orchestrator

    A shallow embedding of the request pipeline of [backend/app]:
    - [app/models/schemas.py]            (module [Schemas]),
    - [app/tools/base_tool.py]           (module [BaseTool]),
    - [app/agents/tool_registry.py]      (module [ToolRegistry]),
    - [app/agents/intent_classifier.py]  (module [IntentClassifier]),
    - [app/agents/agent_orchestrator.py] (module [AgentOrchestrator]).

    Python dictionaries are finite maps ([gmap]); the insertion order of their
    keys is not represented.  Python [float]s are rationals.  [str] values are
    Rocq strings, read as UTF-8 byte sequences.  Exceptions are values, and a
    computation that may raise and may change the process state is a function
    from states to an outcome and a state.  Output written with [print] is
    not represented. *)

From Stdlib Require Import Ascii String QArith.
From stdpp Require Import base strings list gmap option.

Set Warnings "-register-all".
Set Default Proof Using "Type".

(** ** Python values *)

Module Py.

(** [typing.Any], as far as JSON and the tool payloads need it. *)
Inductive pyval :=
  | PNone
  | PBool (b : bool)
  | PInt (n : Z)
  | PFloat (q : Q)
  | PStr (s : string)
  | PList (l : list pyval)
  | PDict (d : gmap string pyval).

(** The truth value of an object, as [if x:] and [not x] test it. *)
Definition truthy (v : pyval) : bool :=
  match v with
  | PNone => false
  | PBool b => b
  | PInt n => negb (n =? 0)%Z
  | PFloat q => negb (Qeq_bool q 0)
  | PStr s => negb (String.eqb s "")
  | PList l => match l with [] => false | _ => true end
  | PDict d => match map_to_list d with [] => false | _ => true end
  end.

(** [d.get(key)] and [d.get(key, default)]. *)
Definition dict_get (d : gmap string pyval) (key : string) : pyval :=
  default PNone (d !! key).

Definition dict_get_default (d : gmap string pyval) (key : string) (dflt : pyval) : pyval :=
  default dflt (d !! key).

(** An exception: [type(e).__name__] and [str(e)]. *)
Record exn := Exception { exn_type : string; exn_str : string }.

(** Outcome of an expression: a value, or an exception raised. *)
Inductive outcome (A : Type) :=
  | Return (a : A)
  | Raise (e : exn).
Arguments Return {A} a.
Arguments Raise {A} e.

#[export] Instance outcome_ret : MRet outcome := λ A a, Return a.

#[export] Instance outcome_bind : MBind outcome := λ A B k o,
  match o with
  | Return a => k a
  | Raise e => Raise e
  end.

(** [seq[-n:]]: the last [n] elements. *)
Definition last_n {A} (n : nat) (l : list A) : list A :=
  drop (length l - n) l.

(** [str.lower()] on the ASCII letters.  The other bytes are kept: no code
    point outside ASCII lowers to a string in which one of the classifier's
    keywords starts or continues. *)
Definition lower_ascii (c : ascii) : ascii :=
  let n := nat_of_ascii c in
  if (65 <=? n)%nat && (n <=? 90)%nat then ascii_of_nat (n + 32) else c.

Fixpoint lower (s : string) : string :=
  match s with
  | EmptyString => EmptyString
  | String c r => String (lower_ascii c) (lower r)
  end.

(** [word in s] on strings: [word] occurs in [s] as a substring. *)
Fixpoint contains (word s : string) : bool :=
  String.prefix word s ||
  match s with
  | EmptyString => false
  | String _ r => contains word r
  end.

(** [any(word in s for word in words)]. *)
Definition any_in (words : list string) (s : string) : bool :=
  existsb (fun word => contains word s) words.

(** [sep.join(parts)]. *)
Definition str_join (sep : string) (parts : list string) : string :=
  String.concat sep parts.

Definition newline : string := String (ascii_of_nat 10) EmptyString.

(** [l.remove(x)] for an [x] that occurs in [l]: the first occurrence goes. *)
Fixpoint list_remove (x : string) (l : list string) : list string :=
  match l with
  | [] => []
  | y :: r => if decide (x = y) then r else y :: list_remove x r
  end.

End Py.
Export Py.

(** ** app/models/schemas.py *)

Module Schemas.

Module MessageType.
Inductive t := USER | ASSISTANT | SYSTEM | TOOL_EXECUTION | ERROR.

(** The value of the member: the enumeration derives from [str], and a
    member compares equal to its value. *)
Definition value (m : t) : string :=
  match m with
  | USER => "user"
  | ASSISTANT => "assistant"
  | SYSTEM => "system"
  | TOOL_EXECUTION => "tool_execution"
  | ERROR => "error"
  end.
End MessageType.

Module ToolStatus.
Inductive t := PENDING | RUNNING | COMPLETED | FAILED.

Definition value (m : t) : string :=
  match m with
  | PENDING => "pending"
  | RUNNING => "running"
  | COMPLETED => "completed"
  | FAILED => "failed"
  end.

(** [status == "completed"] and the like. *)
Definition eq_str (m : t) (s : string) : bool := String.eqb (value m) s.
End ToolStatus.

Module ContentType.
Inductive t := TEXT | CODE | IMAGE | DATA | ERROR.
End ContentType.

#[export] Instance ToolStatus_eq_dec : EqDecision ToolStatus.t.
Proof. solve_decision. Defined.

#[export] Instance ContentType_eq_dec : EqDecision ContentType.t.
Proof. solve_decision. Defined.

#[export] Instance MessageType_eq_dec : EqDecision MessageType.t.
Proof. solve_decision. Defined.

Record ToolResult := mkToolResult {
  tool_name : string;
  status : ToolStatus.t;
  result : option (gmap string pyval);
  error : option string;
  execution_time : option Q
}.

(** [result.execution_time = t]. *)
Definition set_execution_time (r : ToolResult) (t : Q) : ToolResult :=
  mkToolResult (tool_name r) (status r) (result r) (error r) (Some t).

Record MessageContent := mkMessageContent {
  mc_type : ContentType.t;
  mc_content : pyval;
  mc_metadata : option (gmap string pyval)
}.

(** The constructor [MessageContent(type=.., content=.., metadata=..)]:
    the model validates [content : Union[str, Dict[str, Any]]] and raises
    [ValidationError] for any other value. *)
Definition ValidationError (model : string) : exn :=
  Exception "ValidationError" ("validation error for " +:+ model).

Definition MessageContent_new (type : ContentType.t) (content : pyval)
    (metadata : option (gmap string pyval)) : outcome MessageContent :=
  match content with
  | PStr _ | PDict _ => Return (mkMessageContent type content metadata)
  | _ => Raise (ValidationError "MessageContent")
  end.

Record ChatMessage := mkChatMessage {
  msg_id : string;
  msg_type : MessageType.t;
  msg_content : list MessageContent;
  msg_timestamp : Q;
  msg_user_id : option string;
  msg_session_id : option string;
  msg_tool_results : option (list ToolResult)
}.

Record UserQuery := mkUserQuery {
  message : string;
  session_id : option string;
  user_id : option string;
  context : option (gmap string pyval)
}.

Record AgentResponse := mkAgentResponse {
  message_id : string;
  response_type : MessageType.t;
  content : list MessageContent;
  tools_used : option (list string);
  processing_time : option Q;
  resp_session_id : option string
}.

Record IntentClassification := mkIntentClassification {
  intent : string;
  confidence : Q;
  suggested_tools : list string;
  parameters : gmap string pyval;
  reasoning : option string
}.

End Schemas.
Export Schemas.

(** ** The running process

    The objects that live as long as the process (the module-level
    [tool_registry], [intent_classifier] and [agent_orchestrator]), the
    outside world it consults (the wall clock, the [uuid] generator, the
    classification backend), and a record of the calls that leave the
    pipeline. *)

Module Process.

(** A progress callback [callback(message, progress)]: it returns nothing,
    and it may raise. *)
Definition callback := string → Q → outcome unit.

(** A tool object: the attributes set by [BaseTool.__init__] and the two
    abstract methods a subclass supplies.  [execute] stands for the whole
    coroutine of the subclass, as a function of its argument. *)
Record BaseTool := mkBaseTool {
  name : string;
  description : string;
  category : string;
  enabled : bool;
  _progress_callback : option callback;
  validate_parameters : pyval → outcome bool;
  execute : pyval → outcome ToolResult
}.

Record ToolRegistry := mkToolRegistry {
  _tools : gmap string BaseTool;
  _tool_categories : gmap string (list string)
}.

(** The classification backend: the chat completion request of
    [classify_intent] followed by [json.loads] of the reply's content, as a
    function of the system prompt, the user query and the context.  It
    raises when the request or the parsing does. *)
Definition backend := string → string → gmap string pyval → outcome pyval.

Record IntentClassifier := mkIntentClassifier {
  client : option backend;
  _system_prompt : string
}.

(** An entry of [active_sessions]: a dictionary with these two keys. *)
Record session := mkSession {
  created_at : Q;
  message_count : Z
}.

Record AgentOrchestrator := mkAgentOrchestrator {
  active_sessions : gmap string session;
  conversation_history : gmap string (list ChatMessage)
}.

(** Calls observed from outside the pipeline. *)
Inductive event :=
  | Executed (tool : string) (parameters : pyval)
  | Notified (message : string) (progress : Q).

Record process := mkProcess {
  clock : nat → Q;            (* the successive readings of the wall clock *)
  clock_reads : nat;
  uuids : nat → string;       (* the successive values of [str(uuid.uuid4())] *)
  uuid_draws : nat;
  tool_registry : ToolRegistry;
  intent_classifier : IntentClassifier;
  agent_orchestrator : AgentOrchestrator;
  trace : list event
}.

(** A computation: from a process state to an outcome and the state left
    behind.  A raised exception keeps the mutations made before it. *)
Definition M (A : Type) : Type := process → outcome A * process.

#[export] Instance M_ret : MRet M := λ A a s, (Return a, s).

#[export] Instance M_bind : MBind M := λ A B k m s,
  match m s with
  | (Return a, s') => k a s'
  | (Raise e, s') => (Raise e, s')
  end.

Definition raise {A} (e : exn) : M A := λ s, (Raise e, s).

(** An expression that may raise but touches no state. *)
Definition lift {A} (o : outcome A) : M A := λ s, (o, s).

(** [try: body  except Exception as e: handler(e)]. *)
Definition try_except {A} (body : M A) (handler : exn → M A) : M A := λ s,
  match body s with
  | (Return a, s') => (Return a, s')
  | (Raise e, s') => handler e s'
  end.

Definition gets {A} (f : process → A) : M A := λ s, (Return (f s), s).

(** [time.time()], and [datetime.now()] in the same unit. *)
Definition time_time : M Q := λ s,
  (Return (clock s (clock_reads s)),
   mkProcess (clock s) (S (clock_reads s)) (uuids s) (uuid_draws s)
     (tool_registry s) (intent_classifier s) (agent_orchestrator s) (trace s)).

(** [str(uuid.uuid4())]. *)
Definition uuid4 : M string := λ s,
  (Return (uuids s (uuid_draws s)),
   mkProcess (clock s) (clock_reads s) (uuids s) (S (uuid_draws s))
     (tool_registry s) (intent_classifier s) (agent_orchestrator s) (trace s)).

Definition record_event (ev : event) : M unit := λ s,
  (Return tt,
   mkProcess (clock s) (clock_reads s) (uuids s) (uuid_draws s)
     (tool_registry s) (intent_classifier s) (agent_orchestrator s)
     (trace s ++ [ev])).

Definition set_tool_registry (r : ToolRegistry) : M unit := λ s,
  (Return tt,
   mkProcess (clock s) (clock_reads s) (uuids s) (uuid_draws s)
     r (intent_classifier s) (agent_orchestrator s) (trace s)).

Definition set_agent_orchestrator (o : AgentOrchestrator) : M unit := λ s,
  (Return tt,
   mkProcess (clock s) (clock_reads s) (uuids s) (uuid_draws s)
     (tool_registry s) (intent_classifier s) o (trace s)).

(** [await callback(message, progress)]. *)
Definition call_callback (cb : callback) (message : string) (progress : Q) : M unit :=
  record_event (Notified message progress);; lift (cb message progress).

(** [asyncio.gather] over the tasks with [return_exceptions=True]: one outcome per task,
    in the order of the tasks.  The tasks run one after the other here; the
    interleaving of their suspension points is not represented. *)
Definition attempt {A} (task : M A) : M (outcome A) := λ s,
  let '(o, s') := task s in (Return o, s').

Fixpoint gather {A} (tasks : list (M A)) : M (list (outcome A)) :=
  match tasks with
  | [] => mret []
  | task :: rest =>
      o ← attempt task;
      os ← gather rest;
      mret (o :: os)
  end.

End Process.
Export Process.

(** ** app/tools/base_tool.py *)

Module BaseTool.

Definition set_progress_callback (self : BaseTool) (cb : callback) : BaseTool :=
  mkBaseTool (name self) (description self) (category self) (enabled self)
    (Some cb) (validate_parameters self) (execute self).

Definition _report_progress (self : BaseTool) (message : string) (progress : Q) : M unit :=
  match _progress_callback self with
  | Some cb => call_callback cb message progress
  | None => mret tt
  end.

(** [await self.execute(parameters)]. *)
Definition call_execute (self : BaseTool) (parameters : pyval) : M ToolResult :=
  record_event (Executed (name self) parameters);; lift (execute self parameters).

Definition _safe_execute (self : BaseTool) (parameters : pyval) : M ToolResult :=
  start_time ← time_time;
  try_except
    (valid ← lift (validate_parameters self parameters);
     if negb valid then
       now ← time_time;
       mret (mkToolResult (name self) ToolStatus.FAILED None
               (Some "Invalid parameters provided") (Some (now - start_time)%Q))
     else
       _report_progress self ("Starting " +:+ name self +:+ "...") 0.0%Q;;
       result ← call_execute self parameters;
       now ← time_time;
       let result := set_execution_time result (now - start_time)%Q in
       (match status result with
        | ToolStatus.COMPLETED =>
            _report_progress self (name self +:+ " completed successfully") 1.0%Q
        | _ => mret tt
        end);;
       mret result)
    (λ e,
       now ← time_time;
       let execution_time := (now - start_time)%Q in
       let error_message := "Tool execution failed: " +:+ exn_str e in
       _report_progress self (name self +:+ " failed: " +:+ exn_str e) 0.0%Q;;
       mret (mkToolResult (name self) ToolStatus.FAILED None
               (Some error_message) (Some execution_time))).

Definition is_enabled (self : BaseTool) : bool := enabled self.

Definition set_enabled (self : BaseTool) (b : bool) : BaseTool :=
  mkBaseTool (name self) (description self) (category self) b
    (_progress_callback self) (validate_parameters self) (execute self).

Definition enable (self : BaseTool) : BaseTool := set_enabled self true.

Definition disable (self : BaseTool) : BaseTool := set_enabled self false.

End BaseTool.

(** ** app/agents/tool_registry.py *)

Module ToolRegistry.

(** The two dictionaries as [__init__] creates them, before the default
    tool is registered. *)
Definition empty : ToolRegistry := mkToolRegistry ∅ ∅.

Definition register_tool (self : ToolRegistry) (tool : BaseTool) : bool * ToolRegistry :=
  let tools := <[name tool := tool]> (_tools self) in
  (* Update category mapping *)
  let categories :=
    if decide (is_Some (_tool_categories self !! category tool))
    then _tool_categories self
    else <[category tool := []]> (_tool_categories self) in
  let names := default [] (categories !! category tool) in
  let categories :=
    if decide (name tool ∈ names)
    then categories
    else <[category tool := names ++ [name tool]]> categories in
  (true, mkToolRegistry tools categories).

(** [__init__]: the default tool is the text generation tool, [text_tool]. *)
Definition init (text_tool : BaseTool) : ToolRegistry :=
  (register_tool empty text_tool).2.

Definition unregister_tool (self : ToolRegistry) (tool_name : string) : bool * ToolRegistry :=
  match _tools self !! tool_name with
  | None => (false, self)
  | Some tool =>
      let category := category tool in
      (* Remove from tools dict *)
      let tools := delete tool_name (_tools self) in
      (* Remove from category mapping *)
      let categories :=
        match _tool_categories self !! category with
        | None => _tool_categories self
        | Some names =>
            let names :=
              if decide (tool_name ∈ names) then list_remove tool_name names else names in
            (* Remove empty categories *)
            match names with
            | [] => delete category (_tool_categories self)
            | _ => <[category := names]> (_tool_categories self)
            end
        end in
      (true, mkToolRegistry tools categories)
  end.

Definition get_tool (self : ToolRegistry) (tool_name : string) : option BaseTool :=
  _tools self !! tool_name.

Definition get_tools_by_category (self : ToolRegistry) (category : string) : list BaseTool :=
  match _tool_categories self !! category with
  | None => []
  | Some names =>
      omap (λ tool_name,
              match _tools self !! tool_name with
              | Some tool => if BaseTool.is_enabled tool then Some tool else None
              | None => None
              end) names
  end.

(** [list(self._tool_categories.keys())], in the order of the map. *)
Definition get_categories (self : ToolRegistry) : list string :=
  (map_to_list (_tool_categories self)).*1.

Definition get_all_tools (self : ToolRegistry) : gmap string BaseTool :=
  _tools self.

Definition get_enabled_tools (self : ToolRegistry) : gmap string BaseTool :=
  filter (λ item, BaseTool.is_enabled item.2 = true) (_tools self).

(** The dictionary of [get_tool_status]: for each name the flag, the
    category and the description. *)
Definition get_tool_status (self : ToolRegistry) : gmap string (gmap string pyval) :=
  (λ tool : BaseTool,
     ({[ "enabled" := PBool (BaseTool.is_enabled tool);
         "category" := PStr (category tool);
         "description" := PStr (description tool) ]} : gmap string pyval))
  <$> _tools self.

(** [tool.enable()] and [tool.disable()] on the registered object. *)
Definition enable_tool (self : ToolRegistry) (tool_name : string) : bool * ToolRegistry :=
  match get_tool self tool_name with
  | Some tool =>
      (true, mkToolRegistry (<[tool_name := BaseTool.enable tool]> (_tools self))
               (_tool_categories self))
  | None => (false, self)
  end.

Definition disable_tool (self : ToolRegistry) (tool_name : string) : bool * ToolRegistry :=
  match get_tool self tool_name with
  | Some tool =>
      (true, mkToolRegistry (<[tool_name := BaseTool.disable tool]> (_tools self))
               (_tool_categories self))
  | None => (false, self)
  end.

Definition execute_tool (tool_name : string) (parameters : pyval)
    (progress_callback : option callback) : M ToolResult :=
  self ← gets tool_registry;
  match get_tool self tool_name with
  | None =>
      mret (mkToolResult tool_name ToolStatus.FAILED None
              (Some ("Tool '" +:+ tool_name +:+ "' not found")) None)
  | Some tool =>
      if negb (BaseTool.is_enabled tool) then
        mret (mkToolResult tool_name ToolStatus.FAILED None
                (Some ("Tool '" +:+ tool_name +:+ "' is disabled")) None)
      else
        (* Set progress callback if provided *)
        tool ← match progress_callback with
               | Some cb =>
                   let tool := BaseTool.set_progress_callback tool cb in
                   set_tool_registry
                     (mkToolRegistry (<[tool_name := tool]> (_tools self))
                        (_tool_categories self));;
                   mret tool
               | None => mret tool
               end;
        (* Execute the tool safely *)
        BaseTool._safe_execute tool parameters
  end.

(** A request of [execute_multiple_tools]: a dictionary with the keys
    ["tool_name"] (a string) and ["parameters"]; [None] is an absent key. *)
Record request := mkRequest {
  req_tool_name : option string;
  req_parameters : option pyval
}.

(** [if tool_name:] for [tool_name = request.get("tool_name")]. *)
Definition named (r : request) : bool :=
  match req_tool_name r with
  | Some tool_name => truthy (PStr tool_name)
  | None => false
  end.

Definition execute_multiple_tools (tool_requests : list request) : M (list ToolResult) :=
  let tasks :=
    omap (λ r,
            let parameters := default (PDict ∅) (req_parameters r) in
            match req_tool_name r with
            | Some tool_name =>
                if truthy (PStr tool_name)
                then Some (execute_tool tool_name parameters None)
                else None
            | None => None
            end) tool_requests in
  match tasks with
  | [] => mret []
  | _ =>
      (* Execute all tools concurrently *)
      results ← gather tasks;
      (* Handle any exceptions *)
      mret (imap (λ i result,
                    match result with
                    | Raise e =>
                        let tool_name :=
                          default "unknown" (tool_requests !! i ≫= req_tool_name) in
                        mkToolResult tool_name ToolStatus.FAILED None
                          (Some ("Tool execution exception: " +:+ exn_str e)) None
                    | Return r => r
                    end) results)
  end.

End ToolRegistry.

(** ** app/agents/intent_classifier.py *)

Module IntentClassifier.

Definition code_keywords : list string :=
  ["code"; "program"; "function"; "script"; "debug"].

Definition search_keywords : list string :=
  ["search"; "find"; "what is"; "current"; "news"; "latest"].

Definition image_keywords : list string :=
  ["image"; "picture"; "draw"; "create visual"; "generate image"].

Definition calculation_keywords : list string :=
  ["calculate"; "math"; "compute"; "solve"; "equation"].

(** The dictionary [{"text_generation": {"prompt": prompt}}]. *)
Definition prompt_parameters (prompt : string) : gmap string pyval :=
  {[ "text_generation" := PDict {[ "prompt" := PStr prompt ]} ]}.

Definition _fallback_classification (user_query : string) : IntentClassification :=
  let query_lower := lower user_query in
  (* Simple keyword-based classification *)
  if any_in code_keywords query_lower then
    mkIntentClassification "code_generation" 0.7%Q ["text_generation"]
      (prompt_parameters ("Help with coding: " +:+ user_query))
      (Some "Detected code-related keywords")
  else if any_in search_keywords query_lower then
    mkIntentClassification "web_search" 0.6%Q ["text_generation"]
      (prompt_parameters ("Provide information about: " +:+ user_query))
      (Some "Detected search-related keywords")
  else if any_in image_keywords query_lower then
    mkIntentClassification "image_generation" 0.8%Q ["text_generation"]
      (prompt_parameters ("Describe image generation request: " +:+ user_query))
      (Some "Detected image-related keywords")
  else if any_in calculation_keywords query_lower then
    mkIntentClassification "calculation" 0.7%Q ["text_generation"]
      (prompt_parameters ("Help with calculation: " +:+ user_query))
      (Some "Detected calculation-related keywords")
  else
    (* Default to text generation *)
    mkIntentClassification "text_generation" 0.5%Q ["text_generation"]
      (prompt_parameters user_query)
      (Some "Default classification for general text generation").

Section Builtins.

(** The builtin [float] on a string: the number it denotes, if any. *)
Context (float_of_str : string → option Q).

(** [float(x)]. *)
Definition float (x : pyval) : outcome Q :=
  match x with
  | PBool b => Return (if b then 1%Q else 0%Q)
  | PInt n => Return (inject_Z n)
  | PFloat q => Return q
  | PStr s =>
      match float_of_str s with
      | Some q => Return q
      | None => Raise (Exception "ValueError" "could not convert string to float")
      end
  | _ => Raise (Exception "TypeError" "float() argument must be a string or a real number")
  end.

(** The validation the [IntentClassification] model applies to its fields. *)
Definition validate_str (x : pyval) : outcome string :=
  match x with
  | PStr s => Return s
  | _ => Raise (ValidationError "IntentClassification")
  end.

Fixpoint validate_list_str (l : list pyval) : outcome (list string) :=
  match l with
  | [] => Return []
  | x :: r => s ← validate_str x; ss ← validate_list_str r; Return (s :: ss)
  end.

Definition validate_List_str (x : pyval) : outcome (list string) :=
  match x with
  | PList l => validate_list_str l
  | _ => Raise (ValidationError "IntentClassification")
  end.

Definition validate_Dict (x : pyval) : outcome (gmap string pyval) :=
  match x with
  | PDict d => Return d
  | _ => Raise (ValidationError "IntentClassification")
  end.

Definition validate_Optional_str (x : pyval) : outcome (option string) :=
  match x with
  | PNone => Return None
  | PStr s => Return (Some s)
  | _ => Raise (ValidationError "IntentClassification")
  end.

(** The end of the [try] block of [classify_intent]: from the parsed reply
    to the [IntentClassification] object. *)
Definition parse_classification (user_query : string) (classification_data : pyval)
    : outcome IntentClassification :=
  match classification_data with
  | PDict data =>
      confidence ← float (dict_get_default data "confidence" (PFloat 0.5));
      intent ← validate_str (dict_get_default data "intent" (PStr "text_generation"));
      suggested_tools ←
        validate_List_str
          (dict_get_default data "suggested_tools" (PList [PStr "text_generation"]));
      parameters ←
        validate_Dict
          (dict_get_default data "parameters" (PDict (prompt_parameters user_query)));
      reasoning ←
        validate_Optional_str
          (dict_get_default data "reasoning" (PStr "Default classification"));
      Return (mkIntentClassification intent confidence suggested_tools parameters reasoning)
  | _ => Raise (Exception "AttributeError" "object has no attribute 'get'")
  end.

Definition classify_intent (self : IntentClassifier) (user_query : string)
    (context : gmap string pyval) : IntentClassification :=
  match client self with
  | None =>
      (* Fallback classification without OpenAI *)
      _fallback_classification user_query
  | Some create =>
      match
        classification_data ← create (_system_prompt self) user_query context;
        parse_classification user_query classification_data
      with
      | Return classification => classification
      | Raise e => _fallback_classification user_query
      end
  end.

Definition classify_with_history (self : IntentClassifier) (user_query : string)
    (conversation_history : list (gmap string pyval)) : IntentClassification :=
  let context : gmap string pyval :=
    match conversation_history with
    | [] => ∅
    | _ =>
        (* Extract relevant context from conversation history *)
        let recent_messages := last_n 5 conversation_history in
        let context : gmap string pyval :=
          {[ "recent_conversation" := PList (PDict <$> recent_messages) ]} in
        (* Check if user is continuing a previous topic *)
        match list.last recent_messages with
        | Some last_message =>
            match dict_get last_message "type" with
            | PStr "assistant" =>
                <["last_assistant_response" :=
                    dict_get_default last_message "content" (PStr "")]> context
            | _ => context
            end
        | None => context
        end
    end in
  classify_intent self user_query context.

End Builtins.

End IntentClassifier.

(** ** app/agents/agent_orchestrator.py *)

Module AgentOrchestrator.

(** An [Optional[float]] and an [Optional[Dict]] as objects. *)
Definition of_optional_float (x : option Q) : pyval :=
  match x with Some q => PFloat q | None => PNone end.

Definition of_optional_dict (x : option (gmap string pyval)) : pyval :=
  match x with Some d => PDict d | None => PNone end.

(** [str(x)] of an [Optional[str]] inside an f-string. *)
Definition format_optional_str (x : option string) : string :=
  match x with Some s => s | None => "None" end.

Definition _generate_fallback_response (classification : IntentClassification)
    (original_query : string) : MessageContent :=
  let fallback_responses : gmap string string :=
    {[ "text_generation" :=
         "I understand you're asking: '" +:+ original_query +:+
         "'. I'd be happy to help, but I'm currently unable to generate a detailed response. Please try again or rephrase your question.";
       "code_generation" :=
         "I see you need help with coding. While I can't execute code right now, I can suggest that you're looking for help with: '" +:+
         original_query +:+ "'. Please try again later.";
       "web_search" :=
         "You're looking for information about: '" +:+ original_query +:+
         "'. I'm currently unable to search the web, but I recommend checking reliable sources for this information.";
       "image_generation" :=
         "I understand you want to create an image related to: '" +:+ original_query +:+
         "'. Image generation is currently unavailable, but I can help describe what such an image might look like.";
       "calculation" :=
         "I see you need help with calculations: '" +:+ original_query +:+
         "'. While my calculation tools are unavailable, you might want to use a calculator or math software.";
       "data_analysis" :=
         "You're looking to analyze data related to: '" +:+ original_query +:+
         "'. Data analysis tools are currently unavailable, but I can suggest general approaches to your analysis needs." ]} in
  let fallback_text :=
    default
      ("I received your message: '" +:+ original_query +:+
       "'. I'm currently unable to process this request fully, but I'm here to help. Please try again or ask something else.")
      (fallback_responses !! intent classification) in
  mkMessageContent ContentType.TEXT (PStr fallback_text)
    (Some {[ "fallback" := PBool true;
             "original_intent" := PStr (intent classification) ]}).

(** [result.result] as a condition: a dictionary that is not empty. *)
Definition has_result (r : ToolResult) : bool :=
  truthy (of_optional_dict (result r)).

(** [result.result.get(key, dflt)] where [result.result] is a dictionary. *)
Definition result_get (r : ToolResult) (key : string) (dflt : pyval) : pyval :=
  dict_get_default (default ∅ (result r)) key dflt.

(** One turn of the loop over [successful_results]: the blocks it appends
    to [content_parts]. *)
Definition format_successful_result (result : ToolResult) : outcome (list MessageContent) :=
  if String.eqb (tool_name result) "text_generation" && has_result result then
    (* Handle text generation results *)
    let generated_text := result_get result "generated_text" (PStr "") in
    if truthy generated_text then
      block ← MessageContent_new ContentType.TEXT generated_text
        (Some {[ "tool_used" := PStr (tool_name result);
                 "model" := result_get result "model_used" PNone;
                 "tokens" := result_get result "tokens_used" PNone;
                 "execution_time" := of_optional_float (execution_time result) ]});
      Return [block]
    else Return []
  else if String.eqb (tool_name result) "code_execution" && has_result result then
    (* Handle code execution results *)
    let code_output := result_get result "output" (PStr "") in
    block ← MessageContent_new ContentType.CODE code_output
      (Some {[ "tool_used" := PStr (tool_name result);
               "language" := result_get result "language" PNone;
               "execution_time" := of_optional_float (execution_time result) ]});
    Return [block]
  else if String.eqb (tool_name result) "image_generation" && has_result result then
    (* Handle image generation results *)
    let image_url := result_get result "image_url" (PStr "") in
    block ← MessageContent_new ContentType.IMAGE
      (PDict {[ "url" := image_url;
                "description" := result_get result "description" (PStr "") ]})
      (Some {[ "tool_used" := PStr (tool_name result);
               "execution_time" := of_optional_float (execution_time result) ]});
    Return [block]
  else
    (* Handle other tool results generically *)
    block ← MessageContent_new ContentType.DATA
      (if has_result result then of_optional_dict (Schemas.result result) else PDict ∅)
      (Some {[ "tool_used" := PStr (tool_name result);
               "execution_time" := of_optional_float (execution_time result) ]});
    Return [block].

(** The loop [for result in successful_results], from [content_parts]. *)
Fixpoint format_successful_results (successful_results : list ToolResult)
    (content_parts : list MessageContent) : outcome (list MessageContent) :=
  match successful_results with
  | [] => Return content_parts
  | result :: rest =>
      blocks ← format_successful_result result;
      format_successful_results rest (content_parts ++ blocks)
  end.

(** The block for the failed results. *)
Definition format_failed_results (failed_results : list ToolResult) : outcome MessageContent :=
  let error_messages :=
    (λ result,
       "Tool '" +:+ tool_name result +:+ "' failed: " +:+
       format_optional_str (error result)) <$> failed_results in
  MessageContent_new ContentType.ERROR
    (PStr ("Some tools encountered errors:" +:+ newline +:+ str_join newline error_messages))
    (Some {[ "failed_tools" := PList ((λ r, PStr (tool_name r)) <$> failed_results) ]}).

Definition _format_response (classification : IntentClassification)
    (tool_results : list ToolResult) (original_query : string)
    : outcome (list MessageContent) :=
  let content_parts : list MessageContent := [] in
  (* If we have successful tool results, format them *)
  let successful_results :=
    filter (λ r, ToolStatus.eq_str (status r) "completed" = true) tool_results in
  let failed_results :=
    filter (λ r, ToolStatus.eq_str (status r) "failed" = true) tool_results in
  content_parts ← format_successful_results successful_results content_parts;
  (* Handle failed results *)
  content_parts ←
    match failed_results with
    | [] => Return content_parts
    | _ =>
        block ← format_failed_results failed_results;
        Return (content_parts ++ [block])
    end;
  (* If no successful results, provide a fallback response *)
  match successful_results with
  | [] =>
      let fallback_content := _generate_fallback_response classification original_query in
      Return (content_parts ++ [fallback_content])
  | _ => Return content_parts
  end.

Definition _get_conversation_context (self : AgentOrchestrator) (session_id : string)
    : list (gmap string pyval) :=
  match conversation_history self !! session_id with
  | None => []
  | Some history =>
      (* Convert recent messages to simple dict format; the ISO text of the
         timestamp is kept as the time it denotes *)
      (λ msg : ChatMessage,
         ({[ "type" := PStr (MessageType.value (msg_type msg));
             "content" := match msg_content msg with
                          | first :: _ => mc_content first
                          | [] => PStr ""
                          end;
             "timestamp" := PFloat (msg_timestamp msg) ]} : gmap string pyval))
      <$> last_n 5 history
  end.

Definition clear_session (self : AgentOrchestrator) (session_id : string)
    : bool * AgentOrchestrator :=
  (true, mkAgentOrchestrator (delete session_id (active_sessions self))
           (delete session_id (conversation_history self))).

(** [self.conversation_history.get(session_id, [])]. *)
Definition get_session_history (self : AgentOrchestrator) (session_id : string)
    : list ChatMessage :=
  default [] (conversation_history self !! session_id).

Definition get_active_sessions (self : AgentOrchestrator) : gmap string session :=
  active_sessions self.

(** The statistics of a session; the empty dictionary for an unknown one.
    The ISO text of the last timestamp is kept as the time it denotes. *)
Definition get_session_stats (self : AgentOrchestrator) (session_id : string)
    : gmap string pyval :=
  match active_sessions self !! session_id with
  | None => ∅
  | Some session_data =>
      let history := default [] (conversation_history self !! session_id) in
      {[ "session_id" := PStr session_id;
         "created_at" := PFloat (created_at session_data);
         "message_count" := PInt (message_count session_data);
         "conversation_length" := PInt (Z.of_nat (length history));
         "last_activity" := match list.last history with
                            | Some msg => PFloat (msg_timestamp msg)
                            | None => PNone
                            end ]}
  end.

(** [ChatMessage(id=.., type=.., content=.., ..)]: the timestamp is the
    default, [datetime.now()]. *)
Definition ChatMessage_new (id : string) (type : MessageType.t)
    (content : list MessageContent) (session_id : option string)
    (user_id : option string) (tool_results : option (list ToolResult)) : M ChatMessage :=
  timestamp ← time_time;
  mret (mkChatMessage id type content timestamp user_id session_id tool_results).

(** [self.conversation_history[session_id].append(msg)]. *)
Definition append_to_history (session_id : string) (msg : ChatMessage) : M unit :=
  self ← gets agent_orchestrator;
  match conversation_history self !! session_id with
  | Some history =>
      set_agent_orchestrator
        (mkAgentOrchestrator (active_sessions self)
           (<[session_id := history ++ [msg]]> (conversation_history self)))
  | None => raise (Exception "KeyError" session_id)
  end.

(** [if progress_callback: await progress_callback(message, progress)]. *)
Definition report (progress_callback : option callback) (message : string)
    (progress : Q) : M unit :=
  match progress_callback with
  | Some cb => call_callback cb message progress
  | None => mret tt
  end.

(** The start of the [try] block of [process_query]: the session is
    created if needed and counted, and the user message is appended. *)
Definition record_user_message (query : UserQuery) (session_id : string) : M unit :=
  (* Initialize session if needed *)
  self ← gets agent_orchestrator;
  (if decide (is_Some (active_sessions self !! session_id)) then mret tt
   else
     now ← time_time;
     set_agent_orchestrator
       (mkAgentOrchestrator
          (<[session_id := mkSession now 0]> (active_sessions self))
          (<[session_id := []]> (conversation_history self))));;
  (* Update session *)
  self ← gets agent_orchestrator;
  match active_sessions self !! session_id with
  | Some s =>
      set_agent_orchestrator
        (mkAgentOrchestrator
           (<[session_id := mkSession (created_at s) (message_count s + 1)]>
              (active_sessions self))
           (conversation_history self))
  | None => raise (Exception "KeyError" session_id)
  end;;
  (* Add user message to history *)
  id ← uuid4;
  text ← lift (MessageContent_new ContentType.TEXT (PStr (message query)) None);
  user_message ← ChatMessage_new id MessageType.USER [text] (Some session_id)
                   (user_id query) None;
  append_to_history session_id user_message.

Section Builtins.

Context (float_of_str : string → option Q).

(** The [try] block of [process_query], from the first progress report to
    the [return]. *)
Definition answer_query (query : UserQuery) (progress_callback : option callback)
    (start_time : Q) (session_id message_id : string) : M AgentResponse :=
  (* Report progress *)
  report progress_callback "Analyzing your request..." 0.1%Q;;
  (* Step 1: Classify intent *)
  self ← gets agent_orchestrator;
  let conversation_history := _get_conversation_context self session_id in
  classifier ← gets intent_classifier;
  let classification :=
    IntentClassifier.classify_with_history float_of_str classifier
      (message query) conversation_history in
  report progress_callback ("Intent classified: " +:+ intent classification) 0.3%Q;;
  (* Step 2: Execute tools *)
  tool_results ←
    match suggested_tools classification with
    | [] => mret []
    | _ =>
        report progress_callback "Executing tools..." 0.5%Q;;
        (* Prepare tool execution requests *)
        let tool_requests :=
          omap (λ tool_name,
                  match parameters classification !! tool_name with
                  | Some p => Some (ToolRegistry.mkRequest (Some tool_name) (Some p))
                  | None => None
                  end) (suggested_tools classification) in
        (* Execute tools *)
        tool_results ←
          match tool_requests with
          | [] => mret []
          | _ => ToolRegistry.execute_multiple_tools tool_requests
          end;
        report progress_callback "Processing results..." 0.8%Q;;
        mret tool_results
    end;
  (* Step 3: Format response *)
  response_content ←
    lift (_format_response classification tool_results (message query));
  (* Create agent response *)
  now ← time_time;
  let agent_response :=
    mkAgentResponse message_id MessageType.ASSISTANT response_content
      (Some (suggested_tools classification)) (Some (now - start_time)%Q)
      (Some session_id) in
  (* Add assistant message to history *)
  assistant_message ← ChatMessage_new message_id MessageType.ASSISTANT
                        response_content (Some session_id) None (Some tool_results);
  append_to_history session_id assistant_message;;
  report progress_callback "Response ready!" 1.0%Q;;
  mret agent_response.

(** The [try] block of [process_query]. *)
Definition process_query_try (query : UserQuery) (progress_callback : option callback)
    (start_time : Q) (session_id message_id : string) : M AgentResponse :=
  record_user_message query session_id;;
  answer_query query progress_callback start_time session_id message_id.

(** The [except Exception as e] block of [process_query]. *)
Definition process_query_except (start_time : Q) (session_id message_id : string)
    (e : exn) : M AgentResponse :=
  (* Handle errors gracefully *)
  error ← lift (MessageContent_new ContentType.ERROR
                  (PStr ("I encountered an error processing your request: " +:+ exn_str e))
                  (Some {[ "error_type" := PStr (exn_type e) ]}));
  let error_content := [error] in
  now ← time_time;
  mret (mkAgentResponse message_id MessageType.ERROR error_content None
          (Some (now - start_time)%Q) (Some session_id)).

Definition process_query (query : UserQuery) (progress_callback : option callback)
    : M AgentResponse :=
  start_time ← time_time;
  session_id ←
    match session_id query with
    | Some s => if truthy (PStr s) then mret s else uuid4
    | None => uuid4
    end;
  message_id ← uuid4;
  try_except
    (process_query_try query progress_callback start_time session_id message_id)
    (process_query_except start_time session_id message_id).

End Builtins.

End AgentOrchestrator.

(** ** Registries and the states a process can be in *)

Module Reachable.

Import ToolRegistry.

(** The registries obtained from the dictionaries of [__init__] by the
    methods that change a registry.  The registry of a running process is
    one of them: [ToolRegistry.init] is a first [register_tool]. *)
Inductive registry : ToolRegistry → Prop :=
  | registry_empty : registry ToolRegistry.empty
  | registry_register r tool :
      registry r → registry (register_tool r tool).2
  | registry_unregister r tool_name :
      registry r → registry (unregister_tool r tool_name).2
  | registry_enable r tool_name :
      registry r → registry (enable_tool r tool_name).2
  | registry_disable r tool_name :
      registry r → registry (disable_tool r tool_name).2.

(** Every registered tool is listed under its own category. *)
Definition listed (r : ToolRegistry) : Prop :=
  ∀ tool_name tool,
    _tools r !! tool_name = Some tool →
    ∃ names, _tool_categories r !! category tool = Some names ∧ tool_name ∈ names.

(** The category index has no name that the primary index lacks. *)
Definition no_dangling (r : ToolRegistry) : Prop :=
  ∀ c names tool_name,
    _tool_categories r !! c = Some names → tool_name ∈ names →
    is_Some (_tools r !! tool_name).

(** No category of the index has an empty list of names. *)
Definition no_empty_category (r : ToolRegistry) : Prop :=
  ∀ c names, _tool_categories r !! c = Some names → names ≠ [].

(** The two dictionaries of the orchestrator have the same sessions. *)
Definition sessions_consistent (o : AgentOrchestrator) : Prop :=
  ∀ session_id,
    is_Some (active_sessions o !! session_id) ↔
    is_Some (conversation_history o !! session_id).

(** From [s] to [s']: the clock is the same and was only read further, the
    sessions are the same, every history was only appended to, and the
    record of calls was only appended to. *)
Record grows (s s' : process) : Prop := Grows {
  grows_clock : clock s' = clock s;
  grows_reads : (clock_reads s ≤ clock_reads s')%nat;
  grows_classifier : intent_classifier s' = intent_classifier s;
  grows_sessions :
    active_sessions (agent_orchestrator s') = active_sessions (agent_orchestrator s);
  grows_history : ∀ session_id history,
    conversation_history (agent_orchestrator s) !! session_id = Some history →
    ∃ later,
      conversation_history (agent_orchestrator s') !! session_id
        = Some (history ++ later);
  grows_no_history : ∀ session_id,
    conversation_history (agent_orchestrator s) !! session_id = None →
    conversation_history (agent_orchestrator s') !! session_id = None;
  grows_trace : ∃ events, trace s' = trace s ++ events
}.

(** A computation under which the process only grows. *)
Definition stable {A} (m : M A) : Prop := ∀ s, grows s (m s).2.

End Reachable.

(** Tools for the examples: [execute] answers with a completed result. *)
Module Examples.

Definition completed (tool_name text : string) : ToolResult :=
  mkToolResult tool_name ToolStatus.COMPLETED
    (Some {[ "generated_text" := PStr text ]}) None None.

Definition tool (tool_name category : string) (enabled : bool) : BaseTool :=
  mkBaseTool tool_name "An example tool" category enabled None
    (λ _, Return true) (λ _, Return (completed tool_name "Hi there")).

(** The text generation tool with an API key configured, and without. *)
Definition text_tool : BaseTool := tool "text_generation" "ai" true.

Definition text_tool_no_key : BaseTool := tool "text_generation" "ai" false.

End Examples.

(** ** What the formatted response is made of *)

Module Formatted.

Import AgentOrchestrator.

(** What one completed result contributes: at most one block, which names
    the tool of the result. *)
Definition blocks_of (result : ToolResult) (blocks : list MessageContent) : Prop :=
  format_successful_result result = Return blocks ∧
  (length blocks ≤ 1)%nat ∧
  ∀ block, block ∈ blocks →
    mc_type block ≠ ContentType.ERROR ∧
    ∃ metadata, mc_metadata block = Some metadata ∧
                metadata !! "tool_used" = Some (PStr (tool_name result)).

(** The block that reports the failed results. *)
Definition error_block (failed_results : list ToolResult) : MessageContent :=
  mkMessageContent ContentType.ERROR
    (PStr ("Some tools encountered errors:" +:+ newline +:+
           str_join newline
             ((λ r, "Tool '" +:+ tool_name r +:+ "' failed: " +:+
                    format_optional_str (error r)) <$> failed_results)))
    (Some {[ "failed_tools" := PList ((λ r, PStr (tool_name r)) <$> failed_results) ]}).

(** The intents that have a fallback text of their own. *)
Definition fallback_intents : list string :=
  ["text_generation"; "code_generation"; "web_search"; "image_generation";
   "calculation"; "data_analysis"].

(** The fallback texts, by intent: each is written around the query, and
    an intent outside the table gets the generic text. *)
Definition fallback_text (intent original_query : string) : string :=
  if String.eqb intent "text_generation" then
    "I understand you're asking: '" +:+ original_query +:+
    "'. I'd be happy to help, but I'm currently unable to generate a detailed response. Please try again or rephrase your question."
  else if String.eqb intent "code_generation" then
    "I see you need help with coding. While I can't execute code right now, I can suggest that you're looking for help with: '" +:+
    original_query +:+ "'. Please try again later."
  else if String.eqb intent "web_search" then
    "You're looking for information about: '" +:+ original_query +:+
    "'. I'm currently unable to search the web, but I recommend checking reliable sources for this information."
  else if String.eqb intent "image_generation" then
    "I understand you want to create an image related to: '" +:+ original_query +:+
    "'. Image generation is currently unavailable, but I can help describe what such an image might look like."
  else if String.eqb intent "calculation" then
    "I see you need help with calculations: '" +:+ original_query +:+
    "'. While my calculation tools are unavailable, you might want to use a calculator or math software."
  else if String.eqb intent "data_analysis" then
    "You're looking to analyze data related to: '" +:+ original_query +:+
    "'. Data analysis tools are currently unavailable, but I can suggest general approaches to your analysis needs."
  else
    "I received your message: '" +:+ original_query +:+
    "'. I'm currently unable to process this request fully, but I'm here to help. Please try again or ask something else.".

End Formatted.

(** ** What a batch of requests returns *)

Module Batch.

Import ToolRegistry.

(** The result the batch reports for a request whose task had outcome [o]. *)
Definition settle (r : request) (o : outcome ToolResult) : ToolResult :=
  match o with
  | Return result => result
  | Raise e =>
      mkToolResult (default "unknown" (req_tool_name r)) ToolStatus.FAILED None
        (Some ("Tool execution exception: " +:+ exn_str e)) None
  end.

(** The run of a batch from the state [s]: the named requests are executed
    in their order, each from the state the one before it left, and each is
    paired with the outcome of its own execution; a request without a name
    is passed over.  The second component is the state after the run. *)
Fixpoint outcomes (tool_requests : list request) (s : process)
    : list (request * outcome ToolResult) * process :=
  match tool_requests with
  | [] => ([], s)
  | r :: rest =>
      if named r then
        let '(o, s1) :=
          execute_tool (default "" (req_tool_name r))
            (default (PDict ∅) (req_parameters r)) None s in
        let '(os, s2) := outcomes rest s1 in
        ((r, o) :: os, s2)
      else outcomes rest s
  end.

(** [result] reports the outcome [o]: the result of the tool itself, or a
    failed result with the message of the exception. *)
Definition answers (o : outcome ToolResult) (result : ToolResult) : Prop :=
  match o with
  | Return r => result = r
  | Raise e =>
      status result = ToolStatus.FAILED ∧
      error result = Some ("Tool execution exception: " +:+ exn_str e) ∧
      Schemas.result result = None ∧
      execution_time result = None
  end.

(** The coroutines the batch creates: one for each named request. *)
Definition tasks_of (tool_requests : list request) : list (M ToolResult) :=
  omap (λ r,
          let parameters := default (PDict ∅) (req_parameters r) in
          match req_tool_name r with
          | Some tool_name =>
              if truthy (PStr tool_name)
              then Some (execute_tool tool_name parameters None)
              else None
          | None => None
          end) tool_requests.

End Batch.

(** A process for the examples: the clock ticks by one, the identifiers are
    numbered, the registry is the initial one, no backend is configured. *)
Module ExampleProcess.

Definition numbered (n : nat) : string :=
  String (ascii_of_nat (48 + n mod 10)) "-0000-4000-8000-000000000000".

Definition start (text_tool : BaseTool) (client : option backend) : process :=
  mkProcess (λ n, inject_Z (Z.of_nat n)) 0 numbered 0
    (ToolRegistry.init text_tool) (mkIntentClassifier client "system prompt")
    (mkAgentOrchestrator ∅ ∅) [].


(** A tool that rejects every parameter. *)
Definition strict_tool : BaseTool :=
  mkBaseTool "strict" "A tool that accepts nothing" "general" true None
    (λ _, Return false) (λ _, Return (Examples.completed "strict" "never")).

End ExampleProcess.

(** ** What a classification promises *)

Module Classified.

(** At least one tool is suggested, and every suggested tool has its
    parameters. *)
Definition well_formed (c : IntentClassification) : Prop :=
  suggested_tools c ≠ [] ∧
  ∀ tool_name, tool_name ∈ suggested_tools c → is_Some (parameters c !! tool_name).

End Classified.

(** ** Replies the classifier cannot use *)

Module Replies.

(** A parsed reply that is not a JSON object, or whose [suggested_tools] is
    not a list of strings. *)
Definition malformed (reply : pyval) : Prop :=
  match reply with
  | PDict data =>
      match data !! "suggested_tools" with
      | Some (PList tools) => ∃ x, x ∈ tools ∧ ∀ s, x ≠ PStr s
      | Some _ => True
      | None => False
      end
  | _ => True
  end.

End Replies.

(** * Properties *)

Import ToolRegistry Reachable Formatted.

(** ** The registry *)

Lemma list_remove_other (x y : string) (l : list string) :
  x ≠ y → y ∈ l → y ∈ list_remove x l.
Proof.
  intros Hne. induction l as [|z l IH]; simpl; [done|].
  intros Hin. destruct (decide (x = z)) as [->|Hxz].
  - apply elem_of_cons in Hin as [->|Hin]; [done|exact Hin].
  - apply elem_of_cons in Hin as [->|Hin]; [left|right; auto].
Qed.

Lemma register_tool_lookup (r : ToolRegistry) (tool : BaseTool) :
  _tools (register_tool r tool).2 !! name tool = Some tool.
Proof. simpl. by rewrite lookup_insert_eq. Qed.

Lemma register_tool_category_other (r : ToolRegistry) (tool : BaseTool) (c : string) :
  c ≠ category tool →
  _tool_categories (register_tool r tool).2 !! c = _tool_categories r !! c.
Proof.
  intros Hne. unfold register_tool. simpl.
  repeat case_decide; rewrite ?lookup_insert_ne; done.
Qed.

Lemma register_tool_category_own (r : ToolRegistry) (tool : BaseTool) :
  ∃ names,
    _tool_categories (register_tool r tool).2 !! category tool = Some names ∧
    name tool ∈ names ∧
    ∀ n, n ∈ default [] (_tool_categories r !! category tool) → n ∈ names.
Proof.
  unfold register_tool. simpl.
  destruct (decide (is_Some (_tool_categories r !! category tool))) as [[names Hn]|Hnone].
  - rewrite Hn. simpl. case_decide.
    + exists names. by rewrite Hn.
    + exists (names ++ [name tool]). rewrite lookup_insert_eq.
      split; [done|]. split; [set_solver|set_solver].
  - rewrite lookup_insert_eq. simpl.
    exists [name tool]. rewrite lookup_insert_eq.
    split; [done|]. split; [set_solver|].
    apply eq_None_not_Some in Hnone. rewrite Hnone. simpl. set_solver.
Qed.

Lemma register_tool_listed (r : ToolRegistry) (tool : BaseTool) :
  listed r → listed (register_tool r tool).2.
Proof.
  intros Hl n t Hnt.
  change (_tools (register_tool r tool).2) with (<[name tool := tool]> (_tools r)) in Hnt.
  destruct (decide (name tool = n)) as [<-|Hne].
  - rewrite lookup_insert_eq in Hnt. injection Hnt as <-.
    destruct (register_tool_category_own r tool) as (names & ? & ? & ?). eauto.
  - rewrite lookup_insert_ne in Hnt by done.
    destruct (Hl n t Hnt) as (names & Hc & Hin).
    destruct (decide (category t = category tool)) as [Heq|Hc'].
    + rewrite Heq in *.
      destruct (register_tool_category_own r tool) as (names' & ? & ? & Hsub).
      exists names'. split; [done|]. apply Hsub. by rewrite Hc.
    + exists names. by rewrite register_tool_category_other.
Qed.

Lemma unregister_tool_listed (r : ToolRegistry) (tool_name : string) :
  listed r → listed (unregister_tool r tool_name).2.
Proof.
  intros Hl n t. unfold unregister_tool.
  destruct (_tools r !! tool_name) as [tool|] eqn:Htool; simpl; [|by apply Hl].
  intros Hnt. destruct (decide (tool_name = n)) as [->|Hne].
  { by rewrite lookup_delete_eq in Hnt. }
  rewrite lookup_delete_ne in Hnt by done.
  destruct (Hl n t Hnt) as (names & Hc & Hin).
  destruct (decide (category tool = category t)) as [Heq|Hc'].
  - rewrite Heq, Hc.
    assert (n ∈ (if decide (tool_name ∈ names)
                 then list_remove tool_name names else names)) as Hin'.
    { case_decide; [by apply list_remove_other|done]. }
    destruct (if decide (tool_name ∈ names) then _ else _) as [|x l] eqn:E.
    + by apply elem_of_nil in Hin'.
    + exists (x :: l). by rewrite lookup_insert_eq.
  - exists names. split; [|done].
    destruct (_tool_categories r !! category tool) as [names'|]; [|done].
    destruct (if decide (tool_name ∈ names') then _ else _);
      by rewrite ?lookup_delete_ne, ?lookup_insert_ne.
Qed.

Lemma set_enabled_listed (r : ToolRegistry) (tool_name : string) (b : bool) tool :
  _tools r !! tool_name = Some tool →
  listed r →
  listed (mkToolRegistry (<[tool_name := BaseTool.set_enabled tool b]> (_tools r))
            (_tool_categories r)).
Proof.
  intros Htool Hl n t. simpl. destruct (decide (tool_name = n)) as [->|Hne].
  - rewrite lookup_insert_eq. intros [= <-]. simpl. by apply Hl.
  - rewrite lookup_insert_ne by done. apply Hl.
Qed.

Lemma registry_listed (r : ToolRegistry) : registry r → listed r.
Proof.
  induction 1 as [|r tool _ IH|r n _ IH|r n _ IH|r n _ IH].
  - intros n t. simpl. by rewrite lookup_empty.
  - by apply register_tool_listed.
  - by apply unregister_tool_listed.
  - unfold enable_tool, get_tool. destruct (_tools r !! n) eqn:E; [|done].
    by apply set_enabled_listed.
  - unfold disable_tool, get_tool. destruct (_tools r !! n) eqn:E; [|done].
    by apply set_enabled_listed.
Qed.

Lemma get_tools_by_category_enabled (r : ToolRegistry) (c : string) (tool : BaseTool) :
  tool ∈ get_tools_by_category r c → BaseTool.is_enabled tool = true.
Proof.
  unfold get_tools_by_category. destruct (_tool_categories r !! c) as [names|].
  - intros (n & _ & Hn)%list_elem_of_omap.
    destruct (_tools r !! n) as [t|]; [|done].
    destruct (BaseTool.is_enabled t) eqn:E; [|done]. by injection Hn as ->.
  - by intros ?%elem_of_nil.
Qed.

(** C7, on the code: a tool registered under a name that is taken, in another
    category, and then unregistered leaves its name in the first category.
    After [register_tool] of a tool ["t"] in category ["c1"], [register_tool]
    of a tool ["t"] in category ["c2"] and [unregister_tool] of ["t"], the
    category index still lists ["t"] under ["c1"], the primary index has no
    ["t"], and [get_categories] still lists ["c1"], whose last name was
    unregistered. *)
Theorem unregister_tool_after_overwrite_dangles :
  let first := Examples.tool "t" "c1" true in
  let second := Examples.tool "t" "c2" true in
  let r1 := (register_tool (init Examples.text_tool) first).2 in
  let r2 := (register_tool r1 second).2 in
  let r3 := (unregister_tool r2 "t").2 in
  registry r3 ∧
  (unregister_tool r2 "t").1 = true ∧
  _tool_categories r3 !! "c1" = Some ["t"] ∧
  _tools r3 !! "t" = None ∧
  ¬ no_dangling r3 ∧
  "c1" ∈ get_categories r3 ∧
  get_tools_by_category r3 "c1" = [].
Proof.
  intros first second r1 r2 r3.
  assert (_tool_categories r3 !! "c1" = Some ["t"]) as Hc by reflexivity.
  assert (_tools r3 !! "t" = None) as Ht by reflexivity.
  split; [repeat constructor|].
  split; [reflexivity|]. split; [exact Hc|]. split; [exact Ht|].
  split; [|split; [|reflexivity]].
  - intros Hnd. destruct (Hnd "c1" ["t"] "t" Hc) as [t Hsome]; [constructor|].
    rewrite Ht in Hsome. discriminate.
  - unfold get_categories. apply list_elem_of_fmap.
    exists ("c1", ["t"]). split; [done|]. by apply elem_of_map_to_list.
Qed.

(** C9 as stated fails: the tool registered second is disabled, as the text
    generation tool is without an API key, and [get_tools_by_category] for
    the first category leaves it out. *)
Lemma get_tools_by_category_overwritten_disabled :
  let old := Examples.tool "t" "c1" true in
  let new := Examples.tool "t" "c2" false in
  let r := (register_tool (init Examples.text_tool) old).2 in
  let r' := (register_tool r new).2 in
  registry r ∧
  _tools r !! name new = Some old ∧
  category old ≠ category new ∧
  _tool_categories r' !! category old = Some [name new] ∧
  ¬ new ∈ get_tools_by_category r' (category old).
Proof.
  intros old new r r'.
  split; [repeat constructor|].
  split; [reflexivity|]. split; [discriminate|]. split; [reflexivity|].
  intros Hin%get_tools_by_category_enabled. discriminate.
Qed.

(** C9, amended: when a tool is registered under the name of a registered
    tool of another category, the entry of the old category still has the
    name, [get_categories] still lists the old category, and
    [get_tools_by_category] for the old category returns the new tool if it
    is enabled, and does not return it if it is disabled. *)
Theorem register_tool_keeps_old_category (r : ToolRegistry) (old new : BaseTool) :
  registry r →
  _tools r !! name new = Some old →
  category old ≠ category new →
  let r' := (register_tool r new).2 in
  (∃ names, _tool_categories r' !! category old = Some names ∧ name new ∈ names) ∧
  category old ∈ get_categories r' ∧
  (BaseTool.is_enabled new = true → new ∈ get_tools_by_category r' (category old)) ∧
  (BaseTool.is_enabled new = false → ¬ new ∈ get_tools_by_category r' (category old)).
Proof.
  intros Hr Hold Hne r'.
  destruct (registry_listed r Hr _ _ Hold) as (names & Hc & Hin).
  assert (_tool_categories r' !! category old = Some names) as Hc'.
  { unfold r'. by rewrite register_tool_category_other. }
  split; [by exists names|]. split; [|split].
  - unfold get_categories. apply list_elem_of_fmap.
    exists (category old, names). split; [done|]. by apply elem_of_map_to_list.
  - intros Hen. unfold get_tools_by_category. rewrite Hc'.
    apply list_elem_of_omap. exists (name new). split; [done|].
    unfold r'. rewrite register_tool_lookup. by rewrite Hen.
  - intros Hdis Hin'%get_tools_by_category_enabled. congruence.
Qed.

Lemma register_tool_keeps_old_category_witness :
  let old := Examples.tool "t" "c1" true in
  let new := Examples.tool "t" "c2" true in
  let r := (register_tool (init Examples.text_tool) old).2 in
  let r' := (register_tool r new).2 in
  (∃ names, _tool_categories r' !! category old = Some names ∧ name new ∈ names) ∧
  category old ∈ get_categories r' ∧
  (BaseTool.is_enabled new = true → new ∈ get_tools_by_category r' (category old)) ∧
  (BaseTool.is_enabled new = false → ¬ new ∈ get_tools_by_category r' (category old)).
Proof.
  intros old new r r'.
  apply (register_tool_keeps_old_category r old new).
  - repeat constructor.
  - reflexivity.
  - discriminate.
Defined.

(** ** The keyword fallback of the classifier *)

Import IntentClassifier.

(** C8: with no classification backend, [classify_intent] applies the
    keyword sets to the lower-cased message in the order code, web search,
    image, calculation, and defaults to text generation; every result
    suggests exactly the tool [text_generation], with the confidence of its
    category.  "Hello" gives text_generation at 0.5 with the tool list
    [text_generation]; "debug this python function" gives code_generation
    at 0.7. *)
Theorem classify_intent_without_backend (float_of_str : string → option Q)
    (system_prompt user_query : string) (context : gmap string pyval) :
  let self := mkIntentClassifier None system_prompt in
  let classification := classify_intent float_of_str self user_query context in
  let query_lower := lower user_query in
  suggested_tools classification = ["text_generation"] ∧
  (intent classification, confidence classification) =
    (if any_in code_keywords query_lower then ("code_generation", 0.7%Q)
     else if any_in search_keywords query_lower then ("web_search", 0.6%Q)
     else if any_in image_keywords query_lower then ("image_generation", 0.8%Q)
     else if any_in calculation_keywords query_lower then ("calculation", 0.7%Q)
     else ("text_generation", 0.5%Q)) ∧
  (let hello := classify_intent float_of_str self "Hello" context in
   intent hello = "text_generation" ∧ confidence hello = 0.5%Q ∧
   suggested_tools hello = ["text_generation"]) ∧
  (let debug := classify_intent float_of_str self "debug this python function" context in
   intent debug = "code_generation" ∧ confidence debug = 0.7%Q).
Proof.
  intros self classification query_lower.
  split; [|split; [|split; [repeat split|repeat split]]].
  - unfold classification, classify_intent, _fallback_classification. simpl.
    repeat case_match; reflexivity.
  - unfold classification, classify_intent, _fallback_classification. simpl.
    fold query_lower. repeat case_match; reflexivity.
Qed.

(** ** Formatting the response *)

Import AgentOrchestrator.

Lemma prefix_append (w b : string) : String.prefix w (w +:+ b) = true.
Proof.
  induction w as [|c w IH]; simpl; [by destruct b|].
  destruct (Ascii.ascii_dec c c); [exact IH|done].
Qed.

Lemma contains_prefix (w s : string) : String.prefix w s = true → contains w s = true.
Proof. intros H. destruct s; cbn [contains]; rewrite H; reflexivity. Qed.

Lemma contains_append (w a b : string) : contains w (a +:+ w +:+ b) = true.
Proof.
  induction a as [|c a IH].
  - change ("" +:+ w +:+ b) with (w +:+ b). apply contains_prefix, prefix_append.
  - change (String c a +:+ w +:+ b) with (String c (a +:+ w +:+ b)).
    cbn [contains]. rewrite IH. apply orb_true_r.
Qed.

Lemma MessageContent_new_Return type content metadata block :
  MessageContent_new type content metadata = Return block →
  block = mkMessageContent type content metadata.
Proof. destruct content; simpl; congruence. Qed.

Lemma format_successful_result_blocks (result : ToolResult) (blocks : list MessageContent) :
  format_successful_result result = Return blocks → blocks_of result blocks.
Proof.
  intros H. split; [exact H|]. revert H. unfold format_successful_result.
  repeat case_match; simpl;
    try (destruct (MessageContent_new _ _ _) as [b|] eqn:E; simpl; [|discriminate];
         apply MessageContent_new_Return in E; subst b);
    intros [= <-]; (split; [simpl; lia|]);
    intros block Hin; try (by apply elem_of_nil in Hin);
    apply list_elem_of_singleton in Hin; subst block; simpl;
    (split; [discriminate|]); eexists; (split; [reflexivity|]);
    apply lookup_insert_eq.
Qed.

Lemma format_successful_results_spec (results : list ToolResult)
    (content_parts : list MessageContent) :
  match format_successful_results results content_parts with
  | Return content =>
      ∃ blocks, Forall2 blocks_of results blocks ∧
                content = content_parts ++ concat blocks
  | Raise e => Exists (λ r, format_successful_result r = Raise e) results
  end.
Proof.
  revert content_parts. induction results as [|r rs IH]; intros acc; simpl.
  - exists []. split; [constructor|]. by rewrite app_nil_r.
  - destruct (format_successful_result r) as [bs|e] eqn:E; simpl.
    + specialize (IH (acc ++ bs)).
      destruct (format_successful_results rs (acc ++ bs)) as [content|e].
      * destruct IH as (blocks & HF & ->). exists (bs :: blocks).
        split; [constructor; [by apply format_successful_result_blocks|done]|].
        simpl. by rewrite <- app_assoc.
      * by apply Exists_cons_tl.
    + by apply Exists_cons_hd.
Qed.

Lemma fallback_response_text (classification : IntentClassification) (query : string) :
  let block := _generate_fallback_response classification query in
  mc_type block = ContentType.TEXT ∧
  mc_metadata block =
    Some {[ "fallback" := PBool true;
            "original_intent" := PStr (intent classification) ]} ∧
  ∃ before after, mc_content block = PStr (before +:+ query +:+ after).
Proof.
  simpl. split; [reflexivity|]. split; [reflexivity|].
  set (i := intent classification). clearbody i.
  repeat (rewrite lookup_insert; case_decide; [simpl; eauto|]).
  rewrite lookup_singleton. case_decide; simpl; eauto.
Qed.

Lemma fallback_response_generic (classification : IntentClassification) (query : string) :
  intent classification ∉ fallback_intents →
  mc_content (_generate_fallback_response classification query) =
    PStr ("I received your message: '" +:+ query +:+
          "'. I'm currently unable to process this request fully, but I'm here to help. Please try again or ask something else.").
Proof.
  intros Hnot. simpl.
  set (i := intent classification) in *. clearbody i.
  repeat (rewrite lookup_insert_ne; [|intros <-; apply Hnot; set_solver]).
  rewrite lookup_singleton_ne; [done|intros <-; apply Hnot; set_solver].
Qed.

Lemma format_failed_results_Return (failed_results : list ToolResult) :
  format_failed_results failed_results = Return (error_block failed_results).
Proof. reflexivity. Qed.

Lemma eq_str_completed (r : ToolResult) :
  ToolStatus.eq_str (status r) "completed" = true ↔ status r = ToolStatus.COMPLETED.
Proof. destruct (status r); by vm_compute. Qed.

Lemma eq_str_failed (r : ToolResult) :
  ToolStatus.eq_str (status r) "failed" = true ↔ status r = ToolStatus.FAILED.
Proof. destruct (status r); by vm_compute. Qed.

Lemma fallback_response_table (classification : IntentClassification) (query : string) :
  _generate_fallback_response classification query =
    mkMessageContent ContentType.TEXT
      (PStr (fallback_text (intent classification) query))
      (Some {[ "fallback" := PBool true;
               "original_intent" := PStr (intent classification) ]}).
Proof.
  unfold _generate_fallback_response, fallback_text. do 2 f_equal.
  set (i := intent classification). clearbody i.
  repeat match goal with
         | |- context [String.eqb i ?k] =>
             destruct (String.eqb_spec i k) as [->|?];
             [repeat (rewrite lookup_insert_ne by done);
              first [by rewrite lookup_insert_eq | by rewrite lookup_singleton_eq]|]
         end.
  repeat (rewrite lookup_insert_ne by congruence).
  by rewrite lookup_singleton_ne by congruence.
Qed.

Lemma fallback_text_generic (i query : string) :
  if bool_decide (i ∈ fallback_intents)
  then fallback_text i query ≠ fallback_text "" query
  else fallback_text i query = fallback_text "" query.
Proof.
  case_bool_decide as Hin.
  - unfold fallback_intents in Hin.
    repeat (apply elem_of_cons in Hin as [->|Hin]);
      [..|by apply elem_of_nil in Hin]; unfold fallback_text; simpl; discriminate.
  - unfold fallback_text at 1.
    repeat match goal with
           | |- context [String.eqb i ?k] =>
               destruct (String.eqb_spec i k) as [->|?];
               [exfalso; apply Hin; unfold fallback_intents; set_solver|]
           end.
    reflexivity.
Qed.

(** C6: the formatted content is the blocks of the completed results, in the
    order of the results, then one block that lists all failed results if
    there is one, then one fallback block if no result completed; with a
    completed result there is no fallback block.  The fallback is a text
    block around the original query, the generic one when the intent has no
    text of its own.  The function raises only where a completed result
    cannot be formatted. *)
Theorem format_response_order (classification : IntentClassification)
    (tool_results : list ToolResult) (original_query : string) :
  let completed := filter (λ r, status r = ToolStatus.COMPLETED) tool_results in
  let failed := filter (λ r, status r = ToolStatus.FAILED) tool_results in
  let fallback := _generate_fallback_response classification original_query in
  match _format_response classification tool_results original_query with
  | Return content =>
      ∃ blocks,
        Forall2 blocks_of completed blocks ∧
        content =
          concat blocks ++
          match failed with [] => [] | _ => [error_block failed] end ++
          match completed with [] => [fallback] | _ => [] end
  | Raise e => Exists (λ r, format_successful_result r = Raise e) completed
  end ∧
  fallback =
    mkMessageContent ContentType.TEXT
      (PStr (fallback_text (intent classification) original_query))
      (Some {[ "fallback" := PBool true;
               "original_intent" := PStr (intent classification) ]}) ∧
  (∃ before after,
     fallback_text (intent classification) original_query
       = before +:+ original_query +:+ after) ∧
  (if bool_decide (intent classification ∈ fallback_intents)
   then fallback_text (intent classification) original_query
          ≠ fallback_text "" original_query
   else fallback_text (intent classification) original_query
          = fallback_text "" original_query).
Proof.
  intros completed failed fallback.
  pose proof (fallback_response_table classification original_query) as Htab.
  destruct (fallback_response_text classification original_query) as (_ & _ & Hq).
  split; [|split; [exact Htab|split; [|]]]; cycle 1.
  { destruct Hq as (b & a & Hq). exists b, a.
    unfold fallback in Htab. rewrite Htab in Hq. simpl in Hq. congruence. }
  { apply fallback_text_generic. }
  - unfold _format_response.
    rewrite (list_filter_iff _ (λ r, status r = ToolStatus.COMPLETED))
      by apply eq_str_completed.
    rewrite (list_filter_iff (λ r, ToolStatus.eq_str (status r) "failed" = true)
               (λ r, status r = ToolStatus.FAILED)) by apply eq_str_failed.
    fold completed failed.
    pose proof (format_successful_results_spec completed []) as Hs.
    rewrite format_failed_results_Return.
    revert Hs. destruct (format_successful_results completed []) as [parts|e];
      intros Hs; cbv beta iota in Hs; [|exact Hs].
    destruct Hs as (blocks & HF & ->).
    destruct failed, completed; cbn -[error_block _generate_fallback_response];
      exists blocks; (split; [exact HF|]); try reflexivity;
      first [symmetry; apply app_nil_r | by rewrite <- app_assoc].
Qed.

(** The scenario of C6: a completed text generation result "Hi there" and
    a failed image generation result give one text block and then one error
    block, and no fallback block. *)
Example format_response_text_then_error :
  let text := mkToolResult "text_generation" ToolStatus.COMPLETED
                (Some {[ "generated_text" := PStr "Hi there" ]}) None (Some 1%Q) in
  let image := mkToolResult "image_generation" ToolStatus.FAILED None
                 (Some "Tool 'image_generation' not found") None in
  let classification := _fallback_classification "draw a picture and say hi" in
  ∃ block,
    _format_response classification [text; image] "draw a picture and say hi"
      = Return [block; error_block [image]] ∧
    mc_type block = ContentType.TEXT ∧ mc_content block = PStr "Hi there".
Proof. simpl. eexists. split; [reflexivity|]. split; reflexivity. Qed.

Lemma has_result_lookup (r : ToolResult) (payload : gmap string pyval) key value :
  result r = Some payload → payload !! key = Some value → has_result r = true.
Proof.
  intros Hr Hk. unfold has_result. rewrite Hr. simpl.
  destruct (map_to_list payload) eqn:E; [|done].
  apply map_to_list_empty_iff in E. subst payload. by rewrite lookup_empty in Hk.
Qed.

(** C10: a batch whose only result is completed, is named text_generation
    and has a payload whose generated_text is the empty string is formatted
    to the empty content list: no text block, no error block, no fallback
    block. *)
Theorem format_response_empty_generated_text (classification : IntentClassification)
    (original_query : string) (r : ToolResult) (payload : gmap string pyval) :
  status r = ToolStatus.COMPLETED →
  tool_name r = "text_generation" →
  result r = Some payload →
  payload !! "generated_text" = Some (PStr "") →
  _format_response classification [r] original_query = Return [].
Proof.
  intros Hs Hn Hr Hg.
  assert (format_successful_result r = Return []) as Hf.
  { unfold format_successful_result.
    rewrite Hn, (has_result_lookup r payload _ _ Hr Hg). simpl.
    unfold result_get, dict_get_default. rewrite Hr. simpl. by rewrite Hg. }
  unfold _format_response.
  rewrite (list_filter_iff _ (λ r, status r = ToolStatus.COMPLETED))
    by apply eq_str_completed.
  rewrite (list_filter_iff (λ r, ToolStatus.eq_str (status r) "failed" = true)
             (λ r, status r = ToolStatus.FAILED)) by apply eq_str_failed.
  rewrite !filter_cons, !filter_nil.
  rewrite decide_True by done. rewrite decide_False by congruence.
  simpl. by rewrite Hf.
Qed.

Lemma format_response_empty_generated_text_witness :
  _format_response (_fallback_classification "Hello")
    [mkToolResult "text_generation" ToolStatus.COMPLETED
       (Some {[ "generated_text" := PStr ""; "model_used" := PStr "gpt-3.5-turbo" ]})
       None (Some 1%Q)] "Hello" = Return [].
Proof.
  apply (format_response_empty_generated_text _ _ _
           {[ "generated_text" := PStr ""; "model_used" := PStr "gpt-3.5-turbo" ]});
    reflexivity.
Defined.

(** ** The safe execution wrapper *)

(** C5: when [validate_parameters] returns false, [_safe_execute] returns a
    failed result with a non-empty error and the duration between its two
    readings of the clock, and [execute] is not called: nothing is added to
    the record of calls. *)
Theorem safe_execute_invalid_parameters (self : BaseTool) (parameters : pyval)
    (s : process) :
  validate_parameters self parameters = Return false →
  ∃ result s',
    BaseTool._safe_execute self parameters s = (Return result, s') ∧
    tool_name result = name self ∧
    status result = ToolStatus.FAILED ∧
    error result = Some "Invalid parameters provided" ∧
    error result ≠ Some "" ∧
    execution_time result =
      Some (clock s (S (clock_reads s)) - clock s (clock_reads s))%Q ∧
    trace s' = trace s ∧
    (∀ p, Executed (name self) p ∉ trace s → Executed (name self) p ∉ trace s').
Proof.
  intros Hv. unfold BaseTool._safe_execute, try_except, mbind, M_bind, time_time, lift.
  simpl. rewrite Hv. simpl. eexists _, _. split; [reflexivity|].
  simpl. repeat split; try done.
Qed.

Lemma safe_execute_invalid_parameters_witness :
  ∃ result s',
    BaseTool._safe_execute ExampleProcess.strict_tool (PDict ∅)
      (ExampleProcess.start Examples.text_tool None) = (Return result, s') ∧
    status result = ToolStatus.FAILED ∧
    execution_time result = Some (1 - 0)%Q ∧
    trace s' = [].
Proof.
  destruct (safe_execute_invalid_parameters ExampleProcess.strict_tool (PDict ∅)
              (ExampleProcess.start Examples.text_tool None) eq_refl)
    as (result & s' & Hrun & _ & Hs & _ & _ & Ht & Htr & _).
  exists result, s'. split; [exact Hrun|]. split; [exact Hs|].
  split; [exact Ht|exact Htr].
Defined.

(** ** Batches of requests *)

Import Batch.

Lemma gather_outcomes {A} (tasks : list (M A)) (s : process) :
  ∃ os s',
    gather tasks s = (Return os, s') ∧
    Forall2 (λ task o, ∃ s0, o = (task s0).1) tasks os.
Proof.
  revert s. induction tasks as [|task rest IH]; intros s.
  - exists [], s. split; [reflexivity|constructor].
  - simpl. unfold mbind, M_bind, attempt.
    destruct (task s) as [o s1] eqn:E.
    destruct (IH s1) as (os & s2 & Hg & HF). rewrite Hg.
    exists (o :: os), s2. split; [reflexivity|].
    constructor; [|exact HF]. exists s. by rewrite E.
Qed.

Lemma tasks_of_cons (r : request) (rs : list request) :
  tasks_of (r :: rs) =
    if named r
    then execute_tool (default "" (req_tool_name r))
           (default (PDict ∅) (req_parameters r)) None :: tasks_of rs
    else tasks_of rs.
Proof.
  unfold tasks_of, named. cbn [omap list_omap].
  destruct (req_tool_name r) as [n|]; [|reflexivity].
  destruct (truthy (PStr n)); reflexivity.
Qed.

Lemma tasks_of_length (tool_requests : list request) :
  length (tasks_of tool_requests) = length (filter (λ r, named r = true) tool_requests).
Proof.
  induction tool_requests as [|r rs IH]; [reflexivity|].
  rewrite tasks_of_cons, filter_cons. destruct (named r).
  - rewrite decide_True by done. simpl. by rewrite IH.
  - rewrite decide_False by done. exact IH.
Qed.

Lemma tasks_of_named (tool_requests : list request) :
  Forall (λ r, named r = true) tool_requests →
  tasks_of tool_requests =
    (λ r, execute_tool (default "" (req_tool_name r))
            (default (PDict ∅) (req_parameters r)) None) <$> tool_requests.
Proof.
  induction 1 as [|r rs Hr _ IH]; [reflexivity|].
  rewrite tasks_of_cons, Hr, IH. reflexivity.
Qed.

(** The batch returns, with one result for each named request. *)
Lemma execute_multiple_tools_length (tool_requests : list request) (s : process) :
  ∃ results s',
    execute_multiple_tools tool_requests s = (Return results, s') ∧
    length results = length (filter (λ r, named r = true) tool_requests).
Proof.
  unfold execute_multiple_tools. fold (tasks_of tool_requests).
  rewrite <- tasks_of_length.
  destruct (tasks_of tool_requests) as [|t ts] eqn:E.
  - exists [], s. done.
  - destruct (gather_outcomes (t :: ts) s) as (os & s' & Hg & HF).
    unfold mbind, M_bind. rewrite Hg. eexists _, s'. split; [reflexivity|].
    rewrite length_imap. symmetry. by eapply Forall2_length.
Qed.

(** C1 as stated fails: a request without a tool name is skipped, and the
    batch of two requests returns one result. *)
Lemma execute_multiple_tools_skips_unnamed :
  let tool_requests :=
    [mkRequest None (Some (PDict ∅));
     mkRequest (Some "text_generation") (Some (PDict {[ "prompt" := PStr "hi" ]}))] in
  ∃ results s',
    execute_multiple_tools tool_requests
      (ExampleProcess.start Examples.text_tool None) = (Return results, s') ∧
    length tool_requests = 2 ∧ length results = 1.
Proof. simpl. eexists _, _. split; [reflexivity|]. split; reflexivity. Qed.

Lemma outcomes_cons (r : request) (rest : list request) (s : process) :
  outcomes (r :: rest) s =
    if named r then
      let first :=
        execute_tool (default "" (req_tool_name r))
          (default (PDict ∅) (req_parameters r)) None s in
      ((r, first.1) :: (outcomes rest first.2).1, (outcomes rest first.2).2)
    else outcomes rest s.
Proof.
  cbn [outcomes]. destruct (named r); [|reflexivity].
  destruct (execute_tool _ _ _ s) as [o s1]. cbn [fst snd].
  by destruct (outcomes rest s1).
Qed.

Lemma outcomes_requests (tool_requests : list request) (s : process) :
  (outcomes tool_requests s).1.*1 = filter (λ r, named r = true) tool_requests.
Proof.
  revert s. induction tool_requests as [|r rs IH]; intros s; [reflexivity|].
  rewrite filter_cons, outcomes_cons. destruct (named r).
  - rewrite decide_True by done. cbn [fst fmap list_fmap]. by rewrite IH.
  - rewrite decide_False by done. apply IH.
Qed.

Lemma gather_tasks_of (tool_requests : list request) (s : process) :
  gather (tasks_of tool_requests) s =
    (Return (outcomes tool_requests s).1.*2, (outcomes tool_requests s).2).
Proof.
  revert s. induction tool_requests as [|r rs IH]; intros s; [reflexivity|].
  rewrite tasks_of_cons, outcomes_cons. destruct (named r); [|apply IH].
  cbn [gather]. unfold mbind, M_bind, attempt.
  destruct (execute_tool _ _ _ s) as [o s1]. cbn [fst snd]. by rewrite IH.
Qed.

Lemma filter_named_all (tool_requests : list request) :
  forallb named tool_requests = true →
  filter (λ r, named r = true) tool_requests = tool_requests.
Proof.
  induction tool_requests as [|r rs IH]; [done|]. simpl.
  intros [Hr Hrs]%andb_true_iff. rewrite filter_cons, decide_True by done.
  by rewrite IH.
Qed.

Lemma filter_named_shorter (tool_requests : list request) :
  forallb named tool_requests = false →
  (length (filter (λ r, named r = true) tool_requests) < length tool_requests)%nat.
Proof.
  induction tool_requests as [|r rs IH]; [done|].
  cbn [forallb]. rewrite filter_cons. cbn [length].
  pose proof (length_filter (λ r, named r = true) rs) as Hle.
  case_decide as Hr.
  - rewrite Hr. cbn [andb length]. intros H. specialize (IH H). lia.
  - intros _. lia.
Qed.

(** C1, amended: the batch executes the named requests in their order and
    returns one result for each of them, in that order: the i-th result
    reports the outcome of the i-th named request in this run, which is the
    result of the tool or, when the execution raised, a failed result with
    the message of the exception.  When every request has a non-empty tool
    name the list has the length of the input, is index-aligned with it, and
    a failed result carries the tool name of its request.  A request
    without a tool name is skipped, and the list is then shorter than the
    input. *)
Theorem execute_multiple_tools_aligned (tool_requests : list request) (s : process) :
  let run := outcomes tool_requests s in
  ∃ results,
    execute_multiple_tools tool_requests s = (Return results, run.2) ∧
    run.1.*1 = filter (λ r, named r = true) tool_requests ∧
    Forall2 answers run.1.*2 results ∧
    if forallb named tool_requests
    then run.1.*1 = tool_requests ∧
         length results = length tool_requests ∧
         results = (λ ro, settle ro.1 ro.2) <$> run.1
    else (length results < length tool_requests)%nat.
Proof.
  intros run.
  pose proof (outcomes_requests tool_requests s) as Hreqs. fold run in Hreqs.
  pose proof (gather_tasks_of tool_requests s) as Hg. fold run in Hg.
  assert (length (tasks_of tool_requests) = length run.1) as Hlen.
  { rewrite tasks_of_length, <- Hreqs. by rewrite length_fmap. }
  unfold execute_multiple_tools. fold (tasks_of tool_requests).
  destruct (tasks_of tool_requests) as [|t ts] eqn:Et.
  - destruct run.1 as [|x xs] eqn:E1; [|discriminate]. exists [].
    assert (run.2 = s) as ->.
    { simpl in Hg. by injection Hg. }
    split; [done|]. split; [exact Hreqs|]. split; [constructor|].
    destruct (forallb named tool_requests) eqn:Hall.
    + rewrite (filter_named_all _ Hall) in Hreqs. by rewrite <- Hreqs.
    + pose proof (filter_named_shorter _ Hall) as Hs.
      rewrite <- Hreqs in Hs. exact Hs.
  - unfold mbind, M_bind. rewrite Hg.
    eexists. split; [reflexivity|]. split; [exact Hreqs|].
    assert (Forall2 answers run.1.*2
              (imap (λ i result,
                   match result with
                   | Return r0 => r0
                   | Raise e =>
                       mkToolResult
                         (default "unknown" (tool_requests !! i ≫= req_tool_name))
                         ToolStatus.FAILED None
                         (Some ("Tool execution exception: " +:+ exn_str e)) None
                   end) run.1.*2)) as Hans.
    { apply Forall2_same_length_lookup. split; [by rewrite length_imap|].
      intros i o res Ho Hres. rewrite list_lookup_imap, Ho in Hres.
      injection Hres as <-. by destruct o. }
    split; [exact Hans|].
    destruct (forallb named tool_requests) eqn:Hall.
    + rewrite (filter_named_all _ Hall) in Hreqs.
      split; [exact Hreqs|]. split.
      { rewrite length_imap, length_fmap.
        transitivity (length run.1.*1); [by rewrite length_fmap|by rewrite Hreqs]. }
      apply list_eq. intros i.
      assert (tool_requests !! i = run.1.*1 !! i) as Hi by (by rewrite Hreqs).
      rewrite list_lookup_imap, Hi, !list_lookup_fmap.
      destruct (run.1 !! i) as [[r o]|]; [|done]. simpl. by destruct o.
    + pose proof (filter_named_shorter _ Hall) as Hs.
      rewrite <- Hreqs, length_fmap in Hs.
      by rewrite length_imap, length_fmap.
Qed.

(** ** The classifier with a backend *)

Import Classified.

Lemma fallback_classification_well_formed (user_query : string) :
  well_formed (_fallback_classification user_query) ∧
  suggested_tools (_fallback_classification user_query) = ["text_generation"].
Proof.
  unfold _fallback_classification.
  repeat case_match; (split; [split; [done|]|reflexivity]);
    intros n Hn; apply list_elem_of_singleton in Hn; subst n; simpl;
    unfold prompt_parameters; rewrite lookup_singleton_eq; eauto.
Qed.

(** C2 as stated fails on the backend path: a reply with an empty list of
    tools is returned as it is, and so is a reply that suggests a tool and
    gives no parameters for it. *)
Lemma classify_intent_backend_not_well_formed :
  let no_tools : backend :=
    λ _ _ _, Return (PDict {[ "intent" := PStr "general_chat";
                              "suggested_tools" := PList [] ]}) in
  let no_parameters : backend :=
    λ _ _ _, Return (PDict {[ "intent" := PStr "web_search";
                              "suggested_tools" := PList [PStr "web_search"] ]}) in
  let classify create :=
    classify_intent (λ _, None) (mkIntentClassifier (Some create) "system prompt")
      "Hello" ∅ in
  suggested_tools (classify no_tools) = [] ∧
  suggested_tools (classify no_parameters) = ["web_search"] ∧
  parameters (classify no_parameters) !! "web_search" = None ∧
  ¬ well_formed (classify no_tools) ∧
  ¬ well_formed (classify no_parameters).
Proof.
  intros no_tools no_parameters classify.
  assert (suggested_tools (classify no_tools) = []) as H1 by reflexivity.
  assert (suggested_tools (classify no_parameters) = ["web_search"]) as H2 by reflexivity.
  assert (parameters (classify no_parameters) !! "web_search" = None) as H3 by reflexivity.
  split; [exact H1|]. split; [exact H2|]. split; [exact H3|]. split.
  - intros [Hne _]. by apply Hne.
  - intros [_ Hp]. destruct (Hp "web_search") as [x Hx]; [rewrite H2; set_solver|].
    rewrite H3 in Hx. discriminate.
Qed.

Lemma parse_classification_fields (float_of_str : string → option Q)
    (user_query : string) (reply : pyval) (c : IntentClassification) :
  parse_classification float_of_str user_query reply = Return c →
  ∃ data,
    reply = PDict data ∧
    validate_List_str
      (dict_get_default data "suggested_tools" (PList [PStr "text_generation"]))
      = Return (suggested_tools c) ∧
    validate_Dict
      (dict_get_default data "parameters" (PDict (prompt_parameters user_query)))
      = Return (parameters c).
Proof.
  unfold parse_classification. destruct reply as [| | | | | |data]; try discriminate.
  intros H. exists data. split; [reflexivity|]. revert H.
  unfold mbind, outcome_bind.
  destruct (float _ _); [|discriminate].
  destruct (validate_str _); [|discriminate].
  destruct (validate_List_str _); [|discriminate].
  destruct (validate_Dict _); [|discriminate].
  destruct (validate_Optional_str _); [|discriminate].
  by intros [= <-].
Qed.

(** C2, amended: the keyword fallback always suggests the one tool
    text_generation and gives its parameters, and [classify_intent] returns
    the fallback when no backend is configured and when the backend path
    raises.  On the backend path the tools and the parameters are the fields
    of the reply, with the defaults for the missing ones; a reply that has
    neither field gets the well-formed defaults. *)
Theorem classify_intent_well_formed (float_of_str : string → option Q)
    (self : IntentClassifier) (user_query : string) (context : gmap string pyval) :
  let c := classify_intent float_of_str self user_query context in
  well_formed (_fallback_classification user_query) ∧
  match client self with
  | None => c = _fallback_classification user_query
  | Some create =>
      match create (_system_prompt self) user_query context
            ≫= parse_classification float_of_str user_query with
      | Raise _ => c = _fallback_classification user_query
      | Return parsed =>
          c = parsed ∧
          ∃ data,
            create (_system_prompt self) user_query context = Return (PDict data) ∧
            validate_List_str
              (dict_get_default data "suggested_tools" (PList [PStr "text_generation"]))
              = Return (suggested_tools c) ∧
            validate_Dict
              (dict_get_default data "parameters" (PDict (prompt_parameters user_query)))
              = Return (parameters c) ∧
            match data !! "suggested_tools", data !! "parameters" with
            | None, None => well_formed c
            | _, _ => True
            end
      end
  end.
Proof.
  intros c. split; [apply fallback_classification_well_formed|].
  unfold c, classify_intent. destruct (client self) as [create|]; [|reflexivity].
  destruct (create (_system_prompt self) user_query context) as [reply|e] eqn:Hc;
    [|reflexivity].
  cbn [mbind outcome_bind].
  destruct (parse_classification float_of_str user_query reply) as [parsed|e] eqn:Hp;
    [|reflexivity].
  split; [reflexivity|].
  destruct (parse_classification_fields _ _ _ _ Hp) as (data & -> & Ht & Hd).
  exists data. split; [reflexivity|]. split; [exact Ht|]. split; [exact Hd|].
  destruct (data !! "suggested_tools") eqn:E1; [done|].
  destruct (data !! "parameters") eqn:E2; [done|].
  unfold dict_get_default in Ht, Hd. rewrite E1 in Ht. rewrite E2 in Hd.
  simpl in Ht, Hd. injection Ht as Ht. injection Hd as Hd.
  unfold well_formed. rewrite <- Ht, <- Hd. split; [done|].
  intros n Hn. apply list_elem_of_singleton in Hn. subst n.
  unfold prompt_parameters. rewrite lookup_singleton_eq. eauto.
Qed.

(** ** What the pipeline leaves in place *)

Lemma grows_refl (s : process) : grows s s.
Proof.
  split; try done.
  - intros sid h Hh. exists []. by rewrite app_nil_r.
  - exists []. by rewrite app_nil_r.
Qed.

Lemma grows_trans (s1 s2 s3 : process) : grows s1 s2 → grows s2 s3 → grows s1 s3.
Proof.
  intros [Hc1 Hr1 Hi1 Ha1 Hh1 Hn1 [ev1 Ht1]] [Hc2 Hr2 Hi2 Ha2 Hh2 Hn2 [ev2 Ht2]].
  split.
  - congruence.
  - lia.
  - congruence.
  - congruence.
  - intros sid h Hh. destruct (Hh1 _ _ Hh) as [l1 H1].
    destruct (Hh2 _ _ H1) as [l2 H2]. exists (l1 ++ l2). by rewrite app_assoc.
  - intros sid Hh. by apply Hn2, Hn1.
  - exists (ev1 ++ ev2). by rewrite Ht2, Ht1, app_assoc.
Qed.

Lemma stable_ret {A} (a : A) : stable (mret a : M A).
Proof. intros s. apply grows_refl. Qed.

Lemma stable_bind {A B} (m : M A) (k : A → M B) :
  stable m → (∀ a, stable (k a)) → stable (m ≫= k).
Proof.
  intros Hm Hk s. unfold mbind, M_bind. specialize (Hm s).
  destruct (m s) as [[a|e] s1]; simpl in *; [|exact Hm].
  eapply grows_trans; [exact Hm|apply Hk].
Qed.

Lemma stable_try_except {A} (body : M A) (handler : exn → M A) :
  stable body → (∀ e, stable (handler e)) → stable (try_except body handler).
Proof.
  intros Hb Hh s. unfold try_except. specialize (Hb s).
  destruct (body s) as [[a|e] s1]; simpl in *; [exact Hb|].
  eapply grows_trans; [exact Hb|apply Hh].
Qed.

Lemma stable_lift {A} (o : outcome A) : stable (lift o).
Proof. intros s. apply grows_refl. Qed.

Lemma stable_raise {A} (e : exn) : stable (raise e : M A).
Proof. intros s. apply grows_refl. Qed.

Lemma stable_gets {A} (f : process → A) : stable (gets f).
Proof. intros s. apply grows_refl. Qed.

Lemma stable_time_time : stable time_time.
Proof.
  intros s. split; simpl; try done; [lia|..].
  - intros sid h Hh. exists []. by rewrite app_nil_r.
  - exists []. by rewrite app_nil_r.
Qed.

Lemma stable_uuid4 : stable uuid4.
Proof.
  intros s. split; simpl; try done.
  - intros sid h Hh. exists []. by rewrite app_nil_r.
  - exists []. by rewrite app_nil_r.
Qed.

Lemma stable_record_event (ev : event) : stable (record_event ev).
Proof.
  intros s. split; simpl; try done.
  - intros sid h Hh. exists []. by rewrite app_nil_r.
  - by exists [ev].
Qed.

Lemma stable_set_tool_registry (r : ToolRegistry) : stable (set_tool_registry r).
Proof.
  intros s. split; simpl; try done.
  - intros sid h Hh. exists []. by rewrite app_nil_r.
  - exists []. by rewrite app_nil_r.
Qed.

Lemma stable_call_callback (cb : callback) (message : string) (progress : Q) :
  stable (call_callback cb message progress).
Proof.
  apply stable_bind; [apply stable_record_event|intros; apply stable_lift].
Qed.

Lemma stable_report (cb : option callback) (message : string) (progress : Q) :
  stable (report cb message progress).
Proof. destruct cb; [apply stable_call_callback|apply stable_ret]. Qed.

Lemma stable_report_progress (self : BaseTool) (message : string) (progress : Q) :
  stable (BaseTool._report_progress self message progress).
Proof.
  unfold BaseTool._report_progress.
  destruct (_progress_callback self); [apply stable_call_callback|apply stable_ret].
Qed.

Create HintDb stable discriminated.

#[local] Hint Resolve stable_ret stable_lift stable_raise stable_gets stable_time_time
  stable_uuid4 stable_record_event stable_set_tool_registry stable_call_callback
  stable_report stable_report_progress : stable.

(** Take a computation apart along its binds, handlers and case splits. *)
Ltac stable_step :=
  lazymatch goal with
  | |- stable (_ ≫= _) => apply stable_bind; [|intros ?]
  | |- stable (try_except _ _) => apply stable_try_except; [|intros ?]
  | |- stable (match ?x with _ => _ end) => destruct x
  | |- stable (if ?b then _ else _) => destruct b
  | |- stable (let _ := _ in _) => cbv zeta
  | |- _ => solve [auto with stable]
  end.

Ltac stable_steps := repeat stable_step.

Lemma stable_call_execute (self : BaseTool) (parameters : pyval) :
  stable (BaseTool.call_execute self parameters).
Proof. unfold BaseTool.call_execute. stable_steps. Qed.

#[local] Hint Resolve stable_call_execute : stable.

Lemma stable_safe_execute (self : BaseTool) (parameters : pyval) :
  stable (BaseTool._safe_execute self parameters).
Proof. unfold BaseTool._safe_execute. stable_steps. Qed.

#[local] Hint Resolve stable_safe_execute : stable.

Lemma stable_execute_tool (tool_name : string) (parameters : pyval)
    (progress_callback : option callback) :
  stable (execute_tool tool_name parameters progress_callback).
Proof. unfold execute_tool. stable_steps. Qed.

#[local] Hint Resolve stable_execute_tool : stable.

Lemma stable_attempt {A} (task : M A) : stable task → stable (attempt task).
Proof.
  intros Ht s. unfold attempt. specialize (Ht s). by destruct (task s).
Qed.

Lemma stable_gather {A} (tasks : list (M A)) :
  Forall stable tasks → stable (gather tasks).
Proof.
  induction 1 as [|task rest Ht _ IH]; simpl; [apply stable_ret|].
  apply stable_bind; [by apply stable_attempt|intros o].
  apply stable_bind; [exact IH|intros os; apply stable_ret].
Qed.

Lemma stable_tasks_of (tool_requests : list request) :
  Forall stable (tasks_of tool_requests).
Proof.
  induction tool_requests as [|r rs IH]; [constructor|].
  rewrite tasks_of_cons. destruct (named r); [constructor|]; auto with stable.
Qed.

Lemma stable_execute_multiple_tools (tool_requests : list request) :
  stable (execute_multiple_tools tool_requests).
Proof.
  unfold execute_multiple_tools. fold (tasks_of tool_requests).
  pose proof (stable_tasks_of tool_requests) as Ht.
  destruct (tasks_of tool_requests); [apply stable_ret|].
  apply stable_bind; [by apply stable_gather|intros; apply stable_ret].
Qed.

#[local] Hint Resolve stable_execute_multiple_tools : stable.

Lemma stable_ChatMessage_new id type content session_id user_id tool_results :
  stable (ChatMessage_new id type content session_id user_id tool_results).
Proof. unfold ChatMessage_new. stable_steps. Qed.

Lemma stable_append_to_history (session_id : string) (msg : ChatMessage) :
  stable (append_to_history session_id msg).
Proof.
  intros s. unfold append_to_history, mbind, M_bind, gets. simpl.
  destruct (conversation_history (agent_orchestrator s) !! session_id)
    as [history|] eqn:Hh; [|apply grows_refl].
  split; simpl; try done.
  - intros sid h Hsid. destruct (decide (session_id = sid)) as [->|Hne].
    + rewrite lookup_insert_eq. exists [msg]. congruence.
    + rewrite lookup_insert_ne by done. exists []. by rewrite app_nil_r.
  - intros sid Hsid. rewrite lookup_insert_ne; [done|]. congruence.
  - exists []. by rewrite app_nil_r.
Qed.

#[local] Hint Resolve stable_ChatMessage_new stable_append_to_history : stable.

Lemma stable_answer_query float_of_str query progress_callback start_time
    session_id message_id :
  stable (answer_query float_of_str query progress_callback start_time
            session_id message_id).
Proof. unfold answer_query. stable_steps. Qed.

Lemma sessions_consistent_insert (o : AgentOrchestrator) (session_id : string)
    (sess : session) (history : list ChatMessage) :
  sessions_consistent o →
  sessions_consistent
    (mkAgentOrchestrator (<[session_id := sess]> (active_sessions o))
       (<[session_id := history]> (conversation_history o))).
Proof.
  intros H k. simpl. rewrite !lookup_insert. case_decide; [|apply H].
  split; eauto.
Qed.

Lemma sessions_consistent_update (o : AgentOrchestrator) (session_id : string)
    (sess : session) :
  is_Some (active_sessions o !! session_id) →
  sessions_consistent o →
  sessions_consistent
    (mkAgentOrchestrator (<[session_id := sess]> (active_sessions o))
       (conversation_history o)).
Proof.
  intros Hs H k. simpl. rewrite lookup_insert. case_decide as Hk; [|apply H].
  subst k. split; [intros _; by apply H|eauto].
Qed.

Lemma sessions_consistent_append (o : AgentOrchestrator) (session_id : string)
    (history : list ChatMessage) :
  is_Some (conversation_history o !! session_id) →
  sessions_consistent o →
  sessions_consistent
    (mkAgentOrchestrator (active_sessions o)
       (<[session_id := history]> (conversation_history o))).
Proof.
  intros Hs H k. simpl. rewrite lookup_insert. case_decide as Hk; [|apply H].
  subst k. split; [eauto|intros _; by apply H].
Qed.

Lemma record_user_message_runs (query : UserQuery) (session_id : string) (s : process) :
  sessions_consistent (agent_orchestrator s) →
  ∃ user_message s1,
    record_user_message query session_id s = (Return tt, s1) ∧
    conversation_history (agent_orchestrator s1) !! session_id =
      Some (default [] (conversation_history (agent_orchestrator s) !! session_id)
            ++ [user_message]) ∧
    msg_type user_message = MessageType.USER ∧
    msg_content user_message =
      [mkMessageContent ContentType.TEXT (PStr (message query)) None] ∧
    msg_session_id user_message = Some session_id ∧
    msg_user_id user_message = user_id query ∧
    clock s1 = clock s ∧
    (clock_reads s ≤ clock_reads s1)%nat ∧
    intent_classifier s1 = intent_classifier s ∧
    tool_registry s1 = tool_registry s ∧
    trace s1 = trace s ∧
    sessions_consistent (agent_orchestrator s1).
Proof.
  intros Hcons. unfold record_user_message, mbind, M_bind, gets. simpl.
  destruct (decide (is_Some (active_sessions (agent_orchestrator s) !! session_id)))
    as [Hsome|Hnone]; simpl.
  - destruct Hsome as [sess Hsess]. rewrite Hsess. simpl.
    destruct (proj1 (Hcons session_id) (ex_intro _ sess Hsess)) as [h Hh].
    unfold append_to_history, mbind, M_bind, gets; simpl. rewrite Hh. simpl.
    eexists _, _. split; [reflexivity|]. simpl. rewrite lookup_insert_eq.
    split_and!; try done; try lia.
    apply (sessions_consistent_append (mkAgentOrchestrator _ _));
      cbn [active_sessions conversation_history]; [eauto|].
    apply sessions_consistent_update; eauto.
  - rewrite lookup_insert_eq. simpl.
    unfold append_to_history, mbind, M_bind, gets; simpl.
    rewrite lookup_insert_eq. simpl.
    assert (conversation_history (agent_orchestrator s) !! session_id = None) as Hh.
    { apply eq_None_not_Some. intros H. apply Hnone. by apply Hcons. }
    eexists _, _. split; [reflexivity|]. simpl. rewrite lookup_insert_eq, Hh.
    split_and!; try done; try lia.
    apply (sessions_consistent_append (mkAgentOrchestrator _ _));
      cbn [active_sessions conversation_history];
      [exact (ex_intro _ _
                (lookup_insert_eq (conversation_history (agent_orchestrator s))
                   session_id []))|].
    apply (sessions_consistent_update (mkAgentOrchestrator _ _));
      cbn [active_sessions conversation_history];
      [exact (ex_intro _ _
                (lookup_insert_eq (active_sessions (agent_orchestrator s))
                   session_id _))|].
    by apply sessions_consistent_insert.
Qed.

(** ** Errors at the boundary of the pipeline *)

(** The session that [process_query] works on. *)
Lemma process_query_unfold float_of_str query progress_callback (s : process) :
  let start_time := clock s (clock_reads s) in
  let chosen :=
    match session_id query with
    | Some sid => if truthy (PStr sid) then Some sid else None
    | None => None
    end in
  let session := default (uuids s (uuid_draws s)) chosen in
  let message_id :=
    uuids s (match chosen with Some _ => uuid_draws s | None => S (uuid_draws s) end) in
  ∃ s0,
    process_query float_of_str query progress_callback s =
      try_except
        (process_query_try float_of_str query progress_callback start_time
           session message_id)
        (process_query_except start_time session message_id) s0 ∧
    clock s0 = clock s ∧ clock_reads s0 = S (clock_reads s) ∧
    agent_orchestrator s0 = agent_orchestrator s ∧
    tool_registry s0 = tool_registry s ∧
    intent_classifier s0 = intent_classifier s ∧
    trace s0 = trace s.
Proof.
  unfold process_query, mbind, M_bind, time_time, uuid4. simpl.
  destruct (session_id query) as [sid|]; simpl.
  - destruct (negb (String.eqb sid "")); simpl; eexists; split_and!; reflexivity.
  - eexists; split_and!; reflexivity.
Qed.

Lemma process_query_except_runs (start_time : Q) (session mid : string) (e : exn)
    (s : process) :
  process_query_except start_time session mid e s =
    (Return
       (mkAgentResponse mid MessageType.ERROR
          [mkMessageContent ContentType.ERROR
             (PStr ("I encountered an error processing your request: " +:+ exn_str e))
             (Some {[ "error_type" := PStr (exn_type e) ]})]
          None (Some (clock s (clock_reads s) - start_time)%Q) (Some session)),
     mkProcess (clock s) (S (clock_reads s)) (uuids s) (uuid_draws s)
       (tool_registry s) (intent_classifier s) (agent_orchestrator s) (trace s)).
Proof. reflexivity. Qed.



(** ** Progress callbacks that raise *)





(** * Further properties of the registry *)

(** An enabled tool of a registry is found under its own category, and that
    category is listed. *)
Theorem registered_tool_found_by_category (r : ToolRegistry) (tool_name : string)
    (tool : BaseTool) :
  registry r →
  _tools r !! tool_name = Some tool →
  BaseTool.is_enabled tool = true →
  tool ∈ get_tools_by_category r (category tool) ∧
  category tool ∈ get_categories r.
Proof.
  intros Hr Ht Hen. destruct (registry_listed r Hr _ _ Ht) as (names & Hc & Hin).
  split.
  - unfold get_tools_by_category. rewrite Hc. apply list_elem_of_omap.
    exists tool_name. split; [exact Hin|]. by rewrite Ht, Hen.
  - unfold get_categories. apply list_elem_of_fmap.
    exists (category tool, names). split; [done|]. by apply elem_of_map_to_list.
Qed.

Lemma registered_tool_found_by_category_witness :
  Examples.text_tool ∈
    get_tools_by_category (init Examples.text_tool) "ai" ∧
  "ai" ∈ get_categories (init Examples.text_tool).
Proof.
  apply (registered_tool_found_by_category (init Examples.text_tool)
           "text_generation" Examples.text_tool).
  - repeat constructor.
  - reflexivity.
  - reflexivity.
Defined.

Lemma list_remove_nil_inv (x : string) (l : list string) :
  x ∈ l → list_remove x l = [] → l = [x].
Proof.
  destruct l as [|y l]; [by intros ?%elem_of_nil|]. simpl.
  destruct (decide (x = y)) as [->|Hne]; [by intros _ ->|discriminate].
Qed.

Lemma registry_no_empty (r : ToolRegistry) : registry r → no_empty_category r.
Proof.
  induction 1 as [|r tool _ IH|r n _ IH|r n _ IH|r n _ IH].
  - intros c names. simpl. by rewrite lookup_empty.
  - intros c names. destruct (decide (c = category tool)) as [->|Hne].
    + destruct (register_tool_category_own r tool) as (names' & Hl & Hin & _).
      rewrite Hl. intros [= <-] ->. by apply elem_of_nil in Hin.
    + rewrite register_tool_category_other by done. apply IH.
  - intros c names. unfold unregister_tool.
    destruct (_tools r !! n) as [tool|]; [|apply IH]. simpl.
    destruct (_tool_categories r !! category tool) as [old|] eqn:Hold; [|apply IH].
    destruct (if decide (n ∈ old) then list_remove n old else old) as [|x l] eqn:E.
    + destruct (decide (c = category tool)) as [->|Hne].
      * by rewrite lookup_delete_eq.
      * rewrite lookup_delete_ne by done. apply IH.
    + destruct (decide (c = category tool)) as [->|Hne].
      * rewrite lookup_insert_eq. by intros [= <-].
      * rewrite lookup_insert_ne by done. apply IH.
  - unfold enable_tool, get_tool. by destruct (_tools r !! n).
  - unfold disable_tool, get_tool. by destruct (_tools r !! n).
Qed.

(** The category listing of a registry has no empty category: every listed
    category has at least one name. *)
Theorem listed_category_has_a_name (r : ToolRegistry) (c : string) :
  registry r →
  c ∈ get_categories r →
  ∃ tool_name names,
    _tool_categories r !! c = Some names ∧ tool_name ∈ names.
Proof.
  intros Hr Hc. unfold get_categories in Hc.
  apply list_elem_of_fmap in Hc as ([c' names] & -> & Hin).
  apply elem_of_map_to_list in Hin. simpl.
  pose proof (registry_no_empty r Hr _ _ Hin) as Hne.
  destruct names as [|n names]; [done|]. exists n, (n :: names).
  split; [exact Hin|constructor].
Qed.

Lemma listed_category_has_a_name_witness :
  ∃ tool_name names,
    _tool_categories (init Examples.text_tool) !! "ai" = Some names ∧
    tool_name ∈ names.
Proof.
  apply (listed_category_has_a_name (init Examples.text_tool) "ai").
  - repeat constructor.
  - unfold get_categories. apply list_elem_of_fmap.
    exists ("ai", ["text_generation"]). split; [done|].
    by apply elem_of_map_to_list.
Defined.

Lemma list_remove_app_fresh (x : string) (l : list string) :
  x ∉ l → list_remove x (l ++ [x]) = l.
Proof.
  induction l as [|y l IH]; simpl; intros Hx.
  - by rewrite decide_True.
  - apply not_elem_of_cons in Hx as [Hne Hx].
    rewrite decide_False by done. by rewrite IH.
Qed.

(** Registering a tool under a name the registry does not know, and then
    unregistering that name, gives back the registry, when the category
    index had no dangling name. *)
Theorem unregister_after_register (r : ToolRegistry) (tool : BaseTool) :
  registry r →
  no_dangling r →
  _tools r !! name tool = None →
  unregister_tool (register_tool r tool).2 (name tool) = (true, r).
Proof.
  intros Hr Hnd Hfresh. pose proof (registry_no_empty r Hr) as Hne.
  unfold unregister_tool. rewrite register_tool_lookup.
  destruct r as [tools cats]. unfold register_tool. simpl in *.
  rewrite delete_insert_id by done. f_equal. f_equal.
  destruct (decide (is_Some (cats !! category tool))) as [[names Hn]|Hnone].
  - rewrite Hn. simpl.
    assert (name tool ∉ names) as Hnot.
    { intros Hin. destruct (Hnd _ _ _ Hn Hin) as [t Ht]. simpl in Ht. congruence. }
    rewrite decide_False by done. rewrite lookup_insert_eq.
    rewrite decide_True by set_solver. rewrite list_remove_app_fresh by done.
    destruct names as [|n names]; [by destruct (Hne _ _ Hn)|].
    rewrite insert_insert_eq. by apply insert_id.
  - rewrite lookup_insert_eq. simpl. rewrite lookup_insert_eq. simpl.
    rewrite decide_True by constructor. rewrite decide_True by done.
    rewrite insert_insert_eq, delete_insert_id; [done|].
    by apply eq_None_not_Some.
Qed.

Lemma register_tool_no_dangling (r : ToolRegistry) (tool : BaseTool) :
  no_dangling r → no_dangling (register_tool r tool).2.
Proof.
  intros Hnd c names n Hc Hin.
  change (_tools (register_tool r tool).2) with (<[name tool := tool]> (_tools r)).
  destruct (decide (name tool = n)) as [<-|Hn]; [rewrite lookup_insert_eq; eauto|].
  rewrite lookup_insert_ne by done.
  destruct (decide (c = category tool)) as [->|Hne].
  - revert Hc. unfold register_tool. cbn [snd _tool_categories].
    destruct (decide (is_Some (_tool_categories r !! category tool)))
      as [[old Hold]|Hnone].
    + rewrite Hold. cbn [default]. case_decide.
      * rewrite Hold. intros [= <-]. eauto.
      * rewrite lookup_insert_eq. intros [= <-].
        apply elem_of_app in Hin as [Hin|Hin%list_elem_of_singleton]; [eauto|done].
    + rewrite lookup_insert_eq. cbn [default]. rewrite decide_False by apply not_elem_of_nil.
      rewrite lookup_insert_eq. intros [= <-].
      apply list_elem_of_singleton in Hin. done.
  - rewrite register_tool_category_other in Hc by done. eauto.
Qed.

Lemma unregister_after_register_witness :
  unregister_tool
    (register_tool (init Examples.text_tool) (Examples.tool "t" "c1" true)).2 "t"
  = (true, init Examples.text_tool).
Proof.
  apply (unregister_after_register (init Examples.text_tool)
           (Examples.tool "t" "c1" true)).
  - repeat constructor.
  - apply register_tool_no_dangling. intros c names n Hc. simpl in Hc.
    by rewrite lookup_empty in Hc.
  - reflexivity.
Defined.

(** Unregistering a name the registry does not know changes nothing and
    answers false. *)
Theorem unregister_unknown (r : ToolRegistry) (tool_name : string) :
  _tools r !! tool_name = None →
  unregister_tool r tool_name = (false, r).
Proof. intros H. unfold unregister_tool. by rewrite H. Qed.

Lemma unregister_unknown_witness :
  unregister_tool (init Examples.text_tool) "missing"
  = (false, init Examples.text_tool).
Proof. apply unregister_unknown. reflexivity. Defined.

(** * Further properties of the execution of a tool *)

(** [execute_tool] on a name the registry does not know returns the failed
    result "not found", and on a disabled tool the failed result
    "is disabled"; in both cases the process is left as it was: nothing is
    validated, executed or notified, also when a callback is passed. *)
Theorem execute_tool_rejects (tool_name : string) (parameters : pyval)
    (progress_callback : option callback) (s : process) :
  match get_tool (tool_registry s) tool_name with
  | None =>
      execute_tool tool_name parameters progress_callback s =
        (Return (mkToolResult tool_name ToolStatus.FAILED None
                   (Some ("Tool '" +:+ tool_name +:+ "' not found")) None), s)
  | Some tool =>
      if BaseTool.is_enabled tool
      then ∃ tool',
             execute_tool tool_name parameters progress_callback s =
               BaseTool._safe_execute tool' parameters
                 (match progress_callback with
                  | Some cb =>
                      mkProcess (clock s) (clock_reads s) (uuids s) (uuid_draws s)
                        (mkToolRegistry
                           (<[tool_name := tool']> (_tools (tool_registry s)))
                           (_tool_categories (tool_registry s)))
                        (intent_classifier s) (agent_orchestrator s) (trace s)
                  | None => s
                  end) ∧
             tool' = match progress_callback with
                     | Some cb => BaseTool.set_progress_callback tool cb
                     | None => tool
                     end
      else
        execute_tool tool_name parameters progress_callback s =
          (Return (mkToolResult tool_name ToolStatus.FAILED None
                     (Some ("Tool '" +:+ tool_name +:+ "' is disabled")) None), s)
  end.
Proof.
  unfold execute_tool, mbind, M_bind, gets. simpl.
  destruct (get_tool (tool_registry s) tool_name) as [tool|]; [|reflexivity].
  destruct (BaseTool.is_enabled tool); simpl; [|reflexivity].
  destruct progress_callback as [cb|]; simpl; eexists; split; reflexivity.
Qed.

(** After [disable_tool] of a registered tool, [execute_tool] rejects it
    without running it; after [enable_tool] the tool is enabled again and
    is otherwise the tool that was registered. *)
Theorem disable_tool_blocks_execution (tool_name : string) (tool : BaseTool)
    (parameters : pyval) (progress_callback : option callback) (s s' : process) :
  _tools (tool_registry s) !! tool_name = Some tool →
  tool_registry s' = (disable_tool (tool_registry s) tool_name).2 →
  (disable_tool (tool_registry s) tool_name).1 = true ∧
  execute_tool tool_name parameters progress_callback s' =
    (Return (mkToolResult tool_name ToolStatus.FAILED None
               (Some ("Tool '" +:+ tool_name +:+ "' is disabled")) None), s') ∧
  get_tool (enable_tool (tool_registry s') tool_name).2 tool_name =
    Some (BaseTool.enable tool) ∧
  _tool_categories (enable_tool (tool_registry s') tool_name).2 =
    _tool_categories (tool_registry s).
Proof.
  intros Ht Hs'.
  assert (get_tool (tool_registry s') tool_name = Some (BaseTool.disable tool)) as Hd.
  { rewrite Hs'. unfold disable_tool, get_tool. rewrite Ht. simpl.
    by rewrite lookup_insert_eq. }
  split; [unfold disable_tool, get_tool; by rewrite Ht|]. split.
  - pose proof (execute_tool_rejects tool_name parameters progress_callback s') as H.
    by rewrite Hd in H.
  - unfold enable_tool. rewrite Hd. unfold get_tool. cbn [snd _tools _tool_categories].
    split; [by rewrite lookup_insert_eq|].
    rewrite Hs'. unfold disable_tool, get_tool. by rewrite Ht.
Qed.

Lemma disable_tool_blocks_execution_witness :
  let s := ExampleProcess.start Examples.text_tool None in
  let s' :=
    mkProcess (clock s) (clock_reads s) (uuids s) (uuid_draws s)
      (disable_tool (tool_registry s) "text_generation").2
      (intent_classifier s) (agent_orchestrator s) (trace s) in
  (execute_tool "text_generation" (PDict ∅) None s').1 =
    Return (mkToolResult "text_generation" ToolStatus.FAILED None
              (Some "Tool 'text_generation' is disabled") None).
Proof.
  intros s s'.
  destruct (disable_tool_blocks_execution "text_generation" Examples.text_tool
              (PDict ∅) None s s' eq_refl eq_refl) as (_ & Hrun & _).
  by rewrite Hrun.
Defined.

(** Without a callback [_safe_execute] never raises: an exception of
    [validate_parameters] or of [execute] becomes a failed result with the
    message of the exception, and every result has its duration set. *)
Theorem safe_execute_without_callback (self : BaseTool) (parameters : pyval)
    (s : process) :
  _progress_callback self = None →
  ∃ result s',
    BaseTool._safe_execute self parameters s = (Return result, s') ∧
    is_Some (execution_time result) ∧
    match validate_parameters self parameters with
    | Raise e =>
        status result = ToolStatus.FAILED ∧
        error result = Some ("Tool execution failed: " +:+ exn_str e) ∧
        trace s' = trace s
    | Return false =>
        status result = ToolStatus.FAILED ∧
        error result = Some "Invalid parameters provided" ∧
        trace s' = trace s
    | Return true =>
        trace s' = trace s ++ [Executed (name self) parameters] ∧
        match execute self parameters with
        | Return r =>
            tool_name result = tool_name r ∧ status result = status r ∧
            result.(Schemas.result) = r.(Schemas.result) ∧ error result = error r
        | Raise e =>
            tool_name result = name self ∧
            status result = ToolStatus.FAILED ∧
            error result = Some ("Tool execution failed: " +:+ exn_str e)
        end
    end.
Proof.
  intros Hcb. unfold BaseTool._safe_execute, BaseTool._report_progress.
  rewrite Hcb. unfold try_except, mbind, M_bind, time_time, lift. simpl.
  destruct (validate_parameters self parameters) as [[|]|e]; simpl.
  - unfold BaseTool.call_execute, mbind, M_bind, record_event, lift. simpl.
    destruct (execute self parameters) as [r|e]; simpl.
    + destruct (status r) eqn:Es; simpl; eexists _, _; (split; [reflexivity|]);
        simpl; split_and!; first [reflexivity | eexists; reflexivity | assumption].
    + eexists _, _. split; [reflexivity|]. simpl. split_and!; first [reflexivity | eexists; reflexivity | assumption].
  - eexists _, _. split; [reflexivity|]. simpl. split_and!; first [reflexivity | eexists; reflexivity | assumption].
  - eexists _, _. split; [reflexivity|]. simpl. split_and!; first [reflexivity | eexists; reflexivity | assumption].
Qed.

Lemma safe_execute_without_callback_witness :
  ∃ result s',
    BaseTool._safe_execute Examples.text_tool (PDict ∅)
      (ExampleProcess.start Examples.text_tool None) = (Return result, s') ∧
    is_Some (execution_time result) ∧
    trace s' = [Executed "text_generation" (PDict ∅)].
Proof.
  destruct (safe_execute_without_callback Examples.text_tool (PDict ∅)
              (ExampleProcess.start Examples.text_tool None) eq_refl)
    as (result & s' & Hrun & Htime & Htrace & _).
  exists result, s'. split; [exact Hrun|]. split; [exact Htime|exact Htrace].
Defined.

(** Whatever the callback does, a result that [_safe_execute] returns has
    its duration set. *)
Theorem safe_execute_sets_duration (self : BaseTool) (parameters : pyval)
    (s s' : process) (result : ToolResult) :
  BaseTool._safe_execute self parameters s = (Return result, s') →
  is_Some (execution_time result).
Proof.
  unfold BaseTool._safe_execute, BaseTool._report_progress, BaseTool.call_execute.
  unfold try_except, mbind, M_bind, time_time, lift, call_callback, record_event.
  simpl. unfold mbind, M_bind, lift. simpl.
  destruct (validate_parameters self parameters) as [[|]|e];
    destruct (_progress_callback self) as [cb|]; simpl;
    repeat match goal with
           | |- context [cb ?m ?p] => destruct (cb m p) as [[]|?]; simpl
           | |- context [execute self parameters] =>
               destruct (execute self parameters) as [?|?]; simpl
           | |- context [match status ?r with _ => _ end] =>
               destruct (status r); simpl
           end;
    try discriminate; intros [= <- <-]; simpl; eauto.
Qed.

Lemma safe_execute_sets_duration_witness :
  is_Some (execution_time
             (mkToolResult "strict" ToolStatus.FAILED None
                (Some "Invalid parameters provided") (Some (1 - 0)%Q))).
Proof.
  apply (safe_execute_sets_duration ExampleProcess.strict_tool (PDict ∅)
           (ExampleProcess.start Examples.text_tool None)
           (mkProcess (λ n, inject_Z (Z.of_nat n)) 2 ExampleProcess.numbered 0
              (init Examples.text_tool) (mkIntentClassifier None "system prompt")
              (mkAgentOrchestrator ∅ ∅) [])).
  reflexivity.
Defined.

(** * Further properties of the orchestrator *)

(** [clear_session] removes the session from both dictionaries: afterwards
    its statistics are the empty dictionary and its history is empty, the
    other sessions are as they were, and the two dictionaries still have the
    same sessions if they had before.  It answers true also for a session
    that does not exist. *)
Theorem clear_session_forgets (self : AgentOrchestrator) (session_id : string) :
  let cleared := (clear_session self session_id).2 in
  (clear_session self session_id).1 = true ∧
  get_session_stats cleared session_id = ∅ ∧
  get_session_history cleared session_id = [] ∧
  get_active_sessions cleared !! session_id = None ∧
  (∀ other, other ≠ session_id →
     get_session_stats cleared other = get_session_stats self other ∧
     get_session_history cleared other = get_session_history self other) ∧
  (∀ other, other ≠ session_id →
     get_active_sessions cleared !! other = get_active_sessions self !! other) ∧
  (sessions_consistent self → sessions_consistent cleared).
Proof.
  intros cleared. unfold cleared, clear_session, get_session_stats,
    get_session_history, get_active_sessions. cbn [fst snd active_sessions
    conversation_history].
  rewrite !lookup_delete_eq. split_and!; try reflexivity.
  - intros other Hne. by rewrite !lookup_delete_ne.
  - intros other Hne. by rewrite lookup_delete_ne.
  - intros Hc k. cbn [active_sessions conversation_history].
    rewrite !lookup_delete. case_decide; [|apply Hc].
    split; intros [x Hx]; discriminate.
Qed.

(** The statistics of a known session count the messages of its history and
    carry its counter; a session that is not active has none. *)
Theorem session_stats_of_active (self : AgentOrchestrator) (session_id : string) :
  match active_sessions self !! session_id with
  | Some data =>
      get_session_stats self session_id !! "conversation_length" =
        Some (PInt (Z.of_nat (length (get_session_history self session_id)))) ∧
      get_session_stats self session_id !! "message_count" =
        Some (PInt (message_count data)) ∧
      get_session_stats self session_id !! "session_id" = Some (PStr session_id) ∧
      get_session_stats self session_id !! "last_activity" =
        Some (match list.last (get_session_history self session_id) with
              | Some msg => PFloat (msg_timestamp msg)
              | None => PNone
              end)
  | None => get_session_stats self session_id = ∅
  end.
Proof.
  unfold get_session_stats, get_session_history.
  destruct (active_sessions self !! session_id) as [data|]; [|reflexivity].
  split_and!.
  - by repeat (rewrite lookup_insert_ne by done); rewrite lookup_insert_eq.
  - by repeat (rewrite lookup_insert_ne by done); rewrite lookup_insert_eq.
  - by rewrite lookup_insert_eq.
  - by repeat (rewrite lookup_insert_ne by done); rewrite lookup_singleton_eq.
Qed.

(** The context given to the classifier has one entry for each of the last
    five messages of the session, in their order, and is empty for a session
    without history. *)
Theorem conversation_context_last_five (self : AgentOrchestrator) (session_id : string) :
  let context := _get_conversation_context self session_id in
  let history := get_session_history self session_id in
  length context = Nat.min (length history) 5 ∧
  ∀ i entry,
    context !! i = Some entry →
    ∃ msg,
      history !! (length history - 5 + i)%nat = Some msg ∧
      entry !! "type" = Some (PStr (MessageType.value (msg_type msg))) ∧
      entry !! "content" =
        Some (match msg_content msg with
              | first :: _ => mc_content first
              | [] => PStr ""
              end).
Proof.
  intros context history. unfold context, history, _get_conversation_context,
    get_session_history.
  destruct (conversation_history self !! session_id) as [h|]; simpl.
  - split.
    + rewrite length_fmap. unfold last_n. rewrite length_drop.
      destruct (le_lt_dec 5 (length h));
        [rewrite Nat.min_r by lia|rewrite Nat.min_l by lia]; lia.
    + intros i entry Hi. rewrite list_lookup_fmap in Hi.
      unfold last_n in Hi. rewrite lookup_drop in Hi.
      destruct (h !! (length h - 5 + i)%nat) as [msg|]; [|discriminate].
      injection Hi as <-. exists msg. split; [reflexivity|]. split.
      * by rewrite lookup_insert_eq.
      * by rewrite lookup_insert_ne, lookup_insert_eq.
  - split; [reflexivity|]. intros i entry Hi. discriminate.
Qed.

(** When no tool ran the content is the fallback block alone, and when
    every result failed it is the error block over all of them followed by
    the fallback block. *)
Theorem format_response_without_success (classification : IntentClassification)
    (tool_results : list ToolResult) (original_query : string) :
  Forall (λ r, status r = ToolStatus.FAILED) tool_results →
  _format_response classification tool_results original_query =
    Return (match tool_results with
            | [] => [_generate_fallback_response classification original_query]
            | _ => [error_block tool_results;
                    _generate_fallback_response classification original_query]
            end).
Proof.
  intros Hall. unfold _format_response.
  rewrite (list_filter_iff _ (λ r, status r = ToolStatus.COMPLETED))
    by apply eq_str_completed.
  rewrite (list_filter_iff (λ r, ToolStatus.eq_str (status r) "failed" = true)
             (λ r, status r = ToolStatus.FAILED)) by apply eq_str_failed.
  assert (filter (λ r, status r = ToolStatus.COMPLETED) tool_results = []) as ->.
  { induction Hall as [|r rs Hr _ IH]; [done|].
    rewrite filter_cons, decide_False by congruence. exact IH. }
  assert (filter (λ r, status r = ToolStatus.FAILED) tool_results = tool_results) as ->.
  { induction Hall as [|r rs Hr _ IH]; [done|].
    rewrite filter_cons, decide_True by done. by rewrite IH. }
  rewrite format_failed_results_Return.
  by destruct tool_results.
Qed.

Lemma format_response_without_success_witness :
  let failed := mkToolResult "image_generation" ToolStatus.FAILED None
                  (Some "Tool 'image_generation' not found") None in
  let classification := _fallback_classification "draw a picture" in
  _format_response classification [failed] "draw a picture" =
    Return [error_block [failed];
            _generate_fallback_response classification "draw a picture"].
Proof.
  intros failed classification.
  apply (format_response_without_success classification [failed] "draw a picture").
  repeat constructor.
Defined.

Lemma grows_consistent (s s' : process) :
  grows s s' →
  sessions_consistent (agent_orchestrator s) →
  sessions_consistent (agent_orchestrator s').
Proof.
  intros [_ _ _ Ha Hh Hn _] Hc k. rewrite Ha. split.
  - intros [h Hk]%Hc. destruct (Hh _ _ Hk) as [later Hl]. eauto.
  - intros Hk. apply Hc.
    destruct (conversation_history (agent_orchestrator s) !! k) eqn:E; [eauto|].
    rewrite (Hn _ E) in Hk. by destruct Hk.
Qed.

(** [process_query] never raises.  It keeps the two dictionaries of the
    orchestrator on the same sessions and, whether it delivers or answers
    with the error response, leaves the user message in the history of the
    session, after the messages that were there; the session is active
    afterwards. *)
Theorem process_query_keeps_sessions (float_of_str : string → option Q)
    (query : UserQuery) (progress_callback : option callback) (s : process) :
  sessions_consistent (agent_orchestrator s) →
  let chosen :=
    match session_id query with
    | Some sid => if truthy (PStr sid) then Some sid else None
    | None => None
    end in
  let session := default (uuids s (uuid_draws s)) chosen in
  let old := default [] (conversation_history (agent_orchestrator s) !! session) in
  let s' := (process_query float_of_str query progress_callback s).2 in
  sessions_consistent (agent_orchestrator s') ∧
  clock s' = clock s ∧
  (clock_reads s < clock_reads s')%nat ∧
  is_Some (active_sessions (agent_orchestrator s') !! session) ∧
  ∃ response user_message later,
    (process_query float_of_str query progress_callback s).1 = Return response ∧
    conversation_history (agent_orchestrator s') !! session
      = Some (old ++ [user_message] ++ later) ∧
    msg_type user_message = MessageType.USER ∧
    msg_content user_message =
      [mkMessageContent ContentType.TEXT (PStr (message query)) None].
Proof.
  intros Hcons chosen session old s'.
  destruct (process_query_unfold float_of_str query progress_callback s)
    as (s0 & Hrun & Hclock & Hreads & Horch & _ & _ & _).
  fold chosen session in Hrun. unfold s'. rewrite Hrun. clear s' Hrun.
  unfold old. rewrite <- Horch. rewrite <- Horch in Hcons.
  match goal with
  | |- context [process_query_try _ _ _ ?start session ?mid] =>
      set (st := start); set (m := mid)
  end.
  destruct (record_user_message_runs query session s0 Hcons)
    as (um & sa & Hrec & Hhist & Htype & Hcontent & _ & _ & Hca & Hra & _ & _ & _ & Hcsa).
  pose proof (stable_answer_query float_of_str query progress_callback st session m sa)
    as Hgrow.
  unfold try_except, process_query_try, mbind, M_bind. rewrite Hrec.
  destruct (answer_query float_of_str query progress_callback st session m sa)
    as [[r|e] s2] eqn:Hans; simpl in Hgrow;
    pose proof (grows_consistent _ _ Hgrow Hcsa) as Hc2;
    destruct Hgrow as [Hc Hr _ _ Hh _ _];
    destruct (Hh _ _ Hhist) as [later Hl];
    [|rewrite process_query_except_runs];
    cbn [fst snd agent_orchestrator clock clock_reads];
    (split; [exact Hc2|]); (split; [congruence|]); (split; [lia|]);
    (split; [apply Hc2; eauto|]);
    eexists _, um, later; (split; [reflexivity|]);
    (split; [by rewrite Hl, <- app_assoc|]); by split.
Qed.

Lemma process_query_keeps_sessions_witness :
  let s := ExampleProcess.start Examples.text_tool None in
  let query := mkUserQuery "Hello" (Some "session-1") None None in
  let s' := (process_query (λ _, None) query None s).2 in
  sessions_consistent (agent_orchestrator s') ∧
  is_Some (active_sessions (agent_orchestrator s') !! "session-1").
Proof.
  intros s query s'.
  destruct (process_query_keeps_sessions (λ _, None) query None s)
    as (Hc & _ & _ & Ha & _).
  - intros sid. simpl. rewrite !lookup_empty. split; intros [x Hx]; discriminate.
  - split; [exact Hc|exact Ha].
Defined.

(** * Further properties of the classifier *)

Import Replies.

Lemma validate_list_str_rejects (float_of_str : string → option Q)
    (tools : list pyval) (x : pyval) :
  x ∈ tools → (∀ s, x ≠ PStr s) →
  validate_list_str tools = Raise (ValidationError "IntentClassification").
Proof.
  intros Hin Hx. induction tools as [|y tools IH]; [by apply elem_of_nil in Hin|].
  simpl. apply elem_of_cons in Hin as [<-|Hin].
  - destruct x; try reflexivity. by destruct (Hx s).
  - destruct y; try reflexivity. simpl. by rewrite IH.
Qed.

(** A reply that is not an object, or whose [suggested_tools] is not a list
    of strings, is not used: [classify_intent] returns the keyword
    fallback, as it does when the backend raises. *)
Theorem classify_intent_malformed_reply (float_of_str : string → option Q)
    (self : IntentClassifier) (create : backend) (user_query : string)
    (context : gmap string pyval) (reply : pyval) :
  client self = Some create →
  create (_system_prompt self) user_query context = Return reply →
  malformed reply →
  classify_intent float_of_str self user_query context
    = _fallback_classification user_query.
Proof.
  intros Hc Hr Hm. unfold classify_intent. rewrite Hc, Hr. cbn [mbind outcome_bind].
  assert (∃ e, parse_classification float_of_str user_query reply = Raise e)
    as [e ->]; [|reflexivity].
  unfold parse_classification, malformed in *.
  destruct reply as [| | | | | |data]; eauto.
  unfold mbind, outcome_bind.
  destruct (float float_of_str _); [|eauto].
  destruct (validate_str _); [|eauto].
  unfold dict_get_default at 1.
  destruct (data !! "suggested_tools") as [v|]; [|done]. cbn [default].
  destruct v as [| | | | |tools|]; simpl; eauto.
  destruct Hm as (x & Hin & Hx).
  rewrite (validate_list_str_rejects float_of_str tools x Hin Hx). eauto.
Qed.

Lemma classify_intent_malformed_reply_witness :
  classify_intent (λ _, None)
    (mkIntentClassifier
       (Some (λ _ _ _, Return (PDict {[ "suggested_tools" := PStr "web_search" ]})))
       "system prompt")
    "find the latest news" ∅
  = _fallback_classification "find the latest news".
Proof.
  apply (classify_intent_malformed_reply (λ _, None) _
           (λ _ _ _, Return (PDict {[ "suggested_tools" := PStr "web_search" ]}))
           _ _ (PDict {[ "suggested_tools" := PStr "web_search" ]}));
    [reflexivity|reflexivity|exact I].
Defined.

(** An empty object as reply gives the default classification: the intent
    text_generation at 0.5 with the tool text_generation, whose prompt is
    the query. *)
Theorem classify_intent_empty_reply (float_of_str : string → option Q)
    (self : IntentClassifier) (create : backend) (user_query : string)
    (context : gmap string pyval) :
  client self = Some create →
  create (_system_prompt self) user_query context = Return (PDict ∅) →
  classify_intent float_of_str self user_query context =
    mkIntentClassification "text_generation" 0.5%Q ["text_generation"]
      {[ "text_generation" := PDict {[ "prompt" := PStr user_query ]} ]}
      (Some "Default classification").
Proof.
  intros Hc Hr. unfold classify_intent. by rewrite Hc, Hr.
Qed.

Lemma classify_intent_empty_reply_witness :
  classify_intent (λ _, None)
    (mkIntentClassifier (Some (λ _ _ _, Return (PDict ∅))) "system prompt")
    "debug this python function" ∅ =
    mkIntentClassification "text_generation" 0.5%Q ["text_generation"]
      {[ "text_generation" := PDict {[ "prompt" := PStr "debug this python function" ]} ]}
      (Some "Default classification").
Proof.
  apply (classify_intent_empty_reply (λ _, None) _ (λ _ _ _, Return (PDict ∅)));
    reflexivity.
Defined.
